(** * GPS C/A PRN replica generation ([gps/gps_ca_prn_codes.py])

    A shallow embedding of the shift-register engine, the two Gold-code
    constructions, the satellite tables and the self-verification pass,
    followed by the properties of the generated codes.

    Python integers are [Z]; Python lists and numpy vectors are [list Z];
    a [dict] literal is kept as the list of its items in insertion order,
    which is the order [.items()] iterates in.  A raised exception is a
    value of [exn]; code that can raise returns a [result]. *)

From Stdlib Require Import ZArith String Ascii DecimalString.
From stdpp Require Import base list sorting strings.

Local Open Scope Z_scope.

(** ** Exceptions *)

Inductive exn : Type :=
  | IndexError
  | KeyError (key : Z)
  | ValueError (msg : string).

Inductive result (A : Type) : Type :=
  | Ok (a : A)
  | Raise (e : exn).

Arguments Ok {A} a.
Arguments Raise {A} e.

#[global] Instance result_ret : MRet result := @Ok.
#[global] Instance result_bind : MBind result :=
  λ A B f m, match m with Ok a => f a | Raise e => Raise e end.

#[global] Instance exn_eq_dec : EqDecision exn.
Proof. solve_decision. Defined.

#[global] Instance result_eq_dec `{EqDecision A} : EqDecision (result A).
Proof. solve_decision. Defined.

(** ** The Python list primitives used by the source *)

Module Py.

(** [l[i]] resolves a negative index from the end of the list. *)
Definition resolve {A} (l : list A) (i : Z) : Z :=
  if i <? 0 then i + Z.of_nat (length l) else i.

(** [l[i]] as an expression. *)
Definition getitem {A} (l : list A) (i : Z) : result A :=
  let j := resolve l i in
  if j <? 0 then Raise IndexError
  else match l !! Z.to_nat j with
       | Some x => Ok x
       | None => Raise IndexError
       end.

(** [l[i] = x]. *)
Definition setitem {A} (l : list A) (i : Z) (x : A) : result (list A) :=
  let j := resolve l i in
  if j <? 0 then Raise IndexError
  else match l !! Z.to_nat j with
       | Some _ => Ok (<[Z.to_nat j := x]> l)
       | None => Raise IndexError
       end.

(** [sum(l)]: a left fold from [0]. *)
Definition sum (l : list Z) : Z := fold_left Z.add l 0.

(** [str(n)] of an integer. *)
Definition str (n : Z) : string := NilZero.string_of_int (Z.to_int n).

End Py.

(** ** New-types of the source *)

Record ChipDelayMs := { delay_ms : Z }.
Record G2SequenceTapsConfiguration := { taps : list Z }.
Record GpsSatelliteId := { id : Z }.
Record GpsReplicaPrnSignal := { inner : list Z }.

(** [GpsSatelliteId.__eq__] compares the [id] fields. *)
#[global] Instance GpsSatelliteId_eq_dec : EqDecision GpsSatelliteId.
Proof. solve_decision. Defined.

(** A dictionary keyed by satellite: its items in insertion order. *)
Definition dict (V : Type) : Type := list (GpsSatelliteId * V).

Fixpoint dict_get {V} (d : dict V) (k : GpsSatelliteId) : option V :=
  match d with
  | [] => None
  | (k', v) :: d' => if decide (k' = k) then Some v else dict_get d' k
  end.

(** [d[k]] as an expression. *)
Definition dict_getitem {V} (d : dict V) (k : GpsSatelliteId) : result V :=
  match dict_get d k with
  | Some v => Ok v
  | None => Raise (KeyError (id k))
  end.

(** ** The shift register ([shift]) *)

(** Lines 106-113: the output value and the feedback value, both read
    from the register before it is changed. *)
Definition shift_reads (register feedback output : list Z) : result (Z * Z) :=
  out ← mapM (λ i, Py.getitem register (i - 1)) output;
  out ← (if 1 <? Z.of_nat (length out)
         then Ok (Py.sum out mod 2)
         else Py.getitem out 0);
  fbs ← mapM (λ i, Py.getitem register (i - 1)) feedback;
  Ok (out, Py.sum fbs mod 2).

(** Lines 116-117: [for i in reversed(range(k)): register[i+1] = register[i]],
    the register being threaded through the iterations. *)
Fixpoint shift_right (k : nat) (register : list Z) : list Z * result unit :=
  match k with
  | O => (register, Ok ())
  | S i =>
      match Py.getitem register (Z.of_nat i) with
      | Raise e => (register, Raise e)
      | Ok x =>
          match Py.setitem register (Z.of_nat i + 1) x with
          | Raise e => (register, Raise e)
          | Ok register' => shift_right i register'
          end
      end
  end.

(** Lines 116-120: the values move one position to the right, then the
    feedback value is stored in position 1. *)
Definition shift_writes (register : list Z) (fb : Z) : list Z * result unit :=
  match shift_right (length register - 1)%nat register with
  | (register1, Raise e) => (register1, Raise e)
  | (register1, Ok _) =>
      match Py.setitem register1 0 fb with
      | Raise e => (register1, Raise e)
      | Ok register2 => (register2, Ok ())
      end
  end.

(** [shift(register, feedback, output)]: the register after the call and
    the value returned (or the exception raised). *)
Definition shift (register feedback output : list Z) : list Z * result Z :=
  match shift_reads register feedback output with
  | Raise e => (register, Raise e)
  | Ok (out, fb) =>
      match shift_writes register fb with
      | (register', Raise e) => (register', Raise e)
      | (register', Ok _) => (register', Ok out)
      end
  end.

(** ** The Gold code from two shift registers ([_generate_ca_code_with_taps]) *)

Definition ca_state : Type := list Z * list Z * list Z.

(** One iteration of the [for _ in range(1023)] loop on [(G1, G2, ca)]. *)
Definition ca_step (taps : list Z) (st : ca_state) : result ca_state :=
  let '(G1, G2, ca) := st in
  match shift G1 [3; 10] [10] with
  | (_, Raise e) => Raise e
  | (G1', Ok g1) =>
      match shift G2 [2; 3; 6; 8; 9; 10] taps with
      | (_, Raise e) => Raise e
      | (G2', Ok g2) => Ok (G1', G2', ca ++ [(g1 + g2) mod 2])
      end
  end.

Fixpoint ca_loop (n : nat) (taps : list Z) (st : ca_state) : result ca_state :=
  match n with
  | O => Ok st
  | S n' => st' ← ca_step taps st; ca_loop n' taps st'
  end.

Definition ca_init : ca_state := (replicate 10 1, replicate 10 1, []).

Definition _generate_ca_code_with_taps (taps : list Z) : result (list Z) :=
  st ← ca_loop 1023 taps ca_init;
  Ok (st.2).

(** ** The satellite tables of [generate_replica_prn_signals] *)

Definition sat (n : Z) : GpsSatelliteId := {| id := n |}.

Definition satellite_id_to_g2_sequence_tap_configuration
  : dict G2SequenceTapsConfiguration :=
  [ (sat 1, {| taps := [2; 6] |});   (sat 2, {| taps := [3; 7] |});
    (sat 3, {| taps := [4; 8] |});   (sat 4, {| taps := [5; 9] |});
    (sat 5, {| taps := [1; 9] |});   (sat 6, {| taps := [2; 10] |});
    (sat 7, {| taps := [1; 8] |});   (sat 8, {| taps := [2; 9] |});
    (sat 9, {| taps := [3; 10] |});  (sat 10, {| taps := [2; 3] |});
    (sat 11, {| taps := [3; 4] |});  (sat 12, {| taps := [5; 6] |});
    (sat 13, {| taps := [6; 7] |});  (sat 14, {| taps := [7; 8] |});
    (sat 15, {| taps := [8; 9] |});  (sat 16, {| taps := [9; 10] |});
    (sat 17, {| taps := [1; 4] |});  (sat 18, {| taps := [2; 5] |});
    (sat 19, {| taps := [3; 6] |});  (sat 20, {| taps := [4; 7] |});
    (sat 21, {| taps := [5; 8] |});  (sat 22, {| taps := [6; 9] |});
    (sat 23, {| taps := [1; 3] |});  (sat 24, {| taps := [4; 6] |});
    (sat 25, {| taps := [5; 7] |});  (sat 26, {| taps := [6; 8] |});
    (sat 27, {| taps := [7; 9] |});  (sat 28, {| taps := [8; 10] |});
    (sat 29, {| taps := [1; 6] |});  (sat 30, {| taps := [2; 7] |});
    (sat 31, {| taps := [3; 8] |});  (sat 32, {| taps := [4; 9] |}) ].

Definition expected_prn_starting_markers : dict Z :=
  [ (sat 1, 1440);  (sat 2, 1620);  (sat 3, 1710);  (sat 4, 1744);
    (sat 5, 1133);  (sat 6, 1455);  (sat 7, 1131);  (sat 8, 1454);
    (sat 9, 1626);  (sat 10, 1504); (sat 11, 1642); (sat 12, 1750);
    (sat 13, 1764); (sat 14, 1772); (sat 15, 1775); (sat 16, 1776);
    (sat 17, 1156); (sat 18, 1467); (sat 19, 1633); (sat 20, 1715);
    (sat 21, 1746); (sat 22, 1763); (sat 23, 1063); (sat 24, 1706);
    (sat 25, 1743); (sat 26, 1761); (sat 27, 1770); (sat 28, 1774);
    (sat 29, 1127); (sat 30, 1453); (sat 31, 1625); (sat 32, 1712) ].

(** ** Generation of the table (lines 191-198) *)

(** The dict comprehension: one generated code per item, the first
    exception ending the comprehension. *)
Definition generate_output (tap_table : dict G2SequenceTapsConfiguration)
  : result (dict GpsReplicaPrnSignal) :=
  mapM (λ item : GpsSatelliteId * G2SequenceTapsConfiguration,
          prn ← _generate_ca_code_with_taps (taps item.2);
          Ok (item.1, {| inner := prn |}))
       tap_table.

(** ** The verification pass (lines 235-255) *)

(** The body of a base-2 literal: binary digits only. *)
Fixpoint binary_digits (s : string) (acc : Z) : option Z :=
  match s with
  | EmptyString => Some acc
  | String "0" s' => binary_digits s' (2 * acc)
  | String "1" s' => binary_digits s' (2 * acc + 1)
  | String _ _ => None
  end.

Definition invalid_literal (base s : string) : exn :=
  ValueError ("invalid literal for int() with base " ++ base ++ ": '" ++ s ++ "'").

(** [int(s, 2)] on the strings that joining [str] of integers can give
    (decimal digits and minus signs): an optional sign, then at least
    one binary digit. *)
Definition int_base2 (s : string) : result Z :=
  match s with
  | EmptyString => Raise (invalid_literal "2" s)
  | String "-" EmptyString => Raise (invalid_literal "2" s)
  | String "-" body =>
      match binary_digits body 0 with
      | Some n => Ok (- n)
      | None => Raise (invalid_literal "2" s)
      end
  | String _ _ =>
      match binary_digits s 0 with
      | Some n => Ok n
      | None => Raise (invalid_literal "2" s)
      end
  end.

(** [int(c)] of a one-character string. *)
Definition int_digit (c : ascii) : result Z :=
  let n := Z.of_N (N_of_ascii c) - 48 in
  if (0 <=? n) && (n <=? 9) then Ok n
  else Raise (invalid_literal "10" (String c EmptyString)).

(** [''.join([str(bit) for bit in bits])] *)
Definition join_bits (bits : list Z) : string :=
  String.concat "" (map Py.str bits).

(** The f-string of line 255. *)
Definition mismatch_message (satellite_id : GpsSatelliteId)
    (actual_prn_octal_digit : Z) (expected_prn_octal_digit : ascii) : string :=
  "SV " ++ Py.str (id satellite_id) ++ ": PRN digit "
    ++ Py.str actual_prn_octal_digit ++ " didn't match expected digit "
    ++ String expected_prn_octal_digit EmptyString.

(** Lines 251-255: the [enumerate] loop, from index [digit_idx] on. *)
Fixpoint verify_digits (satellite_id : GpsSatelliteId) (prn : list Z)
    (digit_idx : nat) (expected_prn_start_octal_digits : string) : result unit :=
  match expected_prn_start_octal_digits with
  | EmptyString => Ok ()
  | String expected_prn_octal_digit rest =>
      let actual_prn_bits_start_idx := (digit_idx * 3)%nat in
      actual_prn_octal_digit ←
        int_base2 (join_bits (take 3 (drop actual_prn_bits_start_idx prn)));
      expected ← int_digit expected_prn_octal_digit;
      if decide (actual_prn_octal_digit ≠ expected)
      then Raise (ValueError (mismatch_message satellite_id
                                actual_prn_octal_digit expected_prn_octal_digit))
      else verify_digits satellite_id prn (S digit_idx) rest
  end.

(** Lines 237-255: the checks made for one satellite on its signal. *)
Definition verify_prn (satellite_id : GpsSatelliteId) (prn : list Z)
    (expected_prn_start : Z) : result unit :=
  match Py.str expected_prn_start with
  | EmptyString => Raise IndexError
  | String first rest =>
      if negb (Ascii.eqb first "1")
      then Raise (ValueError "Test vector PRN is always expected to begin with 1")
      else
        prn0 ← Py.getitem prn 0;
        if decide (prn0 ≠ 1)
        then Raise (ValueError "Generated PRNs always need to start with 1")
        else verify_digits satellite_id (drop 1 prn) 0 rest
  end.

(** Line 235: the loop over the items of the marker table. *)
Fixpoint verify_all (output : dict GpsReplicaPrnSignal) (markers : dict Z)
  : result unit :=
  match markers with
  | [] => Ok ()
  | (satellite_id, expected_prn_start) :: markers' =>
      signal ← dict_getitem output satellite_id;
      verify_prn satellite_id (inner signal) expected_prn_start;;
      verify_all output markers'
  end.

(** [generate_replica_prn_signals], with its two local tables as
    arguments. *)
Definition generate_replica_prn_signals_from
    (tap_table : dict G2SequenceTapsConfiguration) (markers : dict Z)
  : result (dict GpsReplicaPrnSignal) :=
  output ← generate_output tap_table;
  verify_all output markers;;
  Ok output.

Definition generate_replica_prn_signals : result (dict GpsReplicaPrnSignal) :=
  generate_replica_prn_signals_from
    satellite_id_to_g2_sequence_tap_configuration
    expected_prn_starting_markers.

(** ** The Gold code by rotation ([_generate_ca_code_rolled_by]) *)

Module Scipy.

(** The generator loop of [scipy.signal.max_len_seq]: [state] is a ring
    buffer read at [idx]; each step emits [state[idx]], folds in the
    tapped values by exclusive or and stores the result at [idx]. *)
Fixpoint max_len_seq_inner (taps : list Z) (nbits : Z) (length : nat)
    (idx : Z) (state : list Z) : list Z :=
  match length with
  | O => []
  | S length' =>
      let out := state !!! Z.to_nat idx in
      let feedback :=
        fold_left
          (λ fb tap, Z.lxor fb (state !!! Z.to_nat ((tap + idx) mod nbits)))
          taps out in
      out :: max_len_seq_inner taps nbits length' ((idx + 1) mod nbits)
               (<[Z.to_nat idx := feedback]> state)
  end.

(** [max_len_seq(nbits, taps=taps)[0]]: the taps are made unique and
    checked, the state starts as all ones and [2**nbits - 1] values
    are produced. *)
Definition max_len_seq (nbits : Z) (taps : list Z) : result (list Z) :=
  let taps := reverse (merge_sort Z.le (remove_dups taps)) in
  if existsb (λ t, (t <? 0) || (nbits <? t)) taps || bool_decide (taps = [])
  then Raise (ValueError "taps must be non-empty with values between zero and nbits (inclusive)")
  else
    let length := Z.to_nat (2 ^ nbits - 1) in
    let state := replicate (Z.to_nat nbits) 1 in
    Ok (max_len_seq_inner taps nbits length 0 state).

End Scipy.

Module Np.

(** [np.roll(a, shift)]: element [i] moves to [(i + shift) mod len(a)]. *)
Definition roll (a : list Z) (shift : Z) : list Z :=
  match a with
  | [] => []
  | _ :: _ =>
      let k := Z.to_nat ((- shift) mod Z.of_nat (length a)) in
      drop k a ++ take k a
  end.

(** [np.bitwise_xor(a, b)] on vectors of one length. *)
Definition bitwise_xor (a b : list Z) : list Z := zip_with Z.lxor a b.

End Np.

Definition _generate_ca_code_rolled_by (delay_ms : Z) : result (list Z) :=
  let seq_bit_count := 10 in
  g1 ← Scipy.max_len_seq seq_bit_count [seq_bit_count - 3];
  g2 ← Scipy.max_len_seq seq_bit_count
         [seq_bit_count - 9; seq_bit_count - 8; seq_bit_count - 6;
          seq_bit_count - 3; seq_bit_count - 2];
  Ok (Np.bitwise_xor g1 (Np.roll g2 delay_ms)).

(** Modelled from the spec: the satellite-specific chip delay by which the
    alternative construction rotates the G2 sequence.  The source declares
    the type [ChipDelayMs] and cites the code phase assignments of
    IS-GPS-200L (Table 3-Ia) but lists no delays; these are the
    standardized ones. *)
Definition satellite_id_to_chip_delay : dict ChipDelayMs :=
  [ (sat 1, {| delay_ms := 5 |});    (sat 2, {| delay_ms := 6 |});
    (sat 3, {| delay_ms := 7 |});    (sat 4, {| delay_ms := 8 |});
    (sat 5, {| delay_ms := 17 |});   (sat 6, {| delay_ms := 18 |});
    (sat 7, {| delay_ms := 139 |});  (sat 8, {| delay_ms := 140 |});
    (sat 9, {| delay_ms := 141 |});  (sat 10, {| delay_ms := 251 |});
    (sat 11, {| delay_ms := 252 |}); (sat 12, {| delay_ms := 254 |});
    (sat 13, {| delay_ms := 255 |}); (sat 14, {| delay_ms := 256 |});
    (sat 15, {| delay_ms := 257 |}); (sat 16, {| delay_ms := 258 |});
    (sat 17, {| delay_ms := 469 |}); (sat 18, {| delay_ms := 470 |});
    (sat 19, {| delay_ms := 471 |}); (sat 20, {| delay_ms := 472 |});
    (sat 21, {| delay_ms := 473 |}); (sat 22, {| delay_ms := 474 |});
    (sat 23, {| delay_ms := 509 |}); (sat 24, {| delay_ms := 512 |});
    (sat 25, {| delay_ms := 513 |}); (sat 26, {| delay_ms := 514 |});
    (sat 27, {| delay_ms := 515 |}); (sat 28, {| delay_ms := 516 |});
    (sat 29, {| delay_ms := 859 |}); (sat 30, {| delay_ms := 860 |});
    (sat 31, {| delay_ms := 861 |}); (sat 32, {| delay_ms := 862 |}) ].

(** * Properties *)

(** ** Vocabulary of the statements *)

Definition is_bit (z : Z) : Prop := z = 0 ∨ z = 1.

#[global] Instance is_bit_dec z : Decision (is_bit z).
Proof. unfold is_bit. apply _. Defined.

(** A shift register state: ten binary values. *)
Definition valid_register (register : list Z) : Prop :=
  length register = 10%nat ∧ Forall is_bit register.

(** Tap positions are 1-indexed positions of a register of [n] values. *)
Definition taps_in_range (n : nat) (positions : list Z) : Prop :=
  Forall (λ p, 1 ≤ p ≤ Z.of_nat n) positions.

(** The value held at the 1-indexed [position] of a register. *)
Definition at_position (register : list Z) (position : Z) : Z :=
  register !!! Z.to_nat (position - 1).

(** Sum modulo 2 of the values held at the listed positions. *)
Definition parity_at (register : list Z) (positions : list Z) : Z :=
  Py.sum (map (at_position register) positions) mod 2.

(** What [shift] returns: the value at a single output tap, the parity
    over several. *)
Definition output_value (register : list Z) (output : list Z) : Z :=
  match output with
  | [position] => at_position register position
  | _ => parity_at register output
  end.

(** The values of successive groups of three bits, most significant bit
    first. *)
Fixpoint octal_groups (bits : list Z) : list Z :=
  match bits with
  | b2 :: b1 :: b0 :: bits' => (4 * b2 + 2 * b1 + b0) :: octal_groups bits'
  | _ => []
  end.

(** The last three decimal digits of a reference marker. *)
Definition last_three_digits (marker : Z) : list Z :=
  [marker / 100 mod 10; marker / 10 mod 10; marker mod 10].

(** The satellite identifiers 1 to 32. *)
Definition satellite_ids : list GpsSatelliteId :=
  map (λ n, sat (Z.of_nat n)) (seq 1 32).

(** A tap configuration of the static table: two distinct positions in
    [1,10]. *)
Definition two_taps (taps : list Z) : Prop :=
  ∃ a b, taps = [a; b] ∧ a ≠ b ∧ 1 ≤ a ≤ 10 ∧ 1 ≤ b ≤ 10.

Definition two_taps_b (taps : list Z) : bool :=
  match taps with
  | [a; b] =>
      bool_decide (a ≠ b) && bool_decide (1 ≤ a ≤ 10) && bool_decide (1 ≤ b ≤ 10)
  | _ => false
  end.

Definition table_entry_two_taps (sid : GpsSatelliteId) : bool :=
  match dict_get satellite_id_to_g2_sequence_tap_configuration sid with
  | Some cfg => two_taps_b (taps cfg)
  | None => false
  end.

(** The chips appended by the first [k] iterations of the generation loop. *)
Definition first_chips (k : nat) (taps : list Z) : list Z :=
  match ca_loop k taps ca_init with
  | Ok st => st.2
  | Raise _ => []
  end.

(** An item of the marker table has a four-digit marker and a tap
    configuration whose first ten chips pass the checks made on it. *)
Definition marker_entry_verifies (item : GpsSatelliteId * Z) : bool :=
  match dict_get satellite_id_to_g2_sequence_tap_configuration item.1 with
  | Some cfg =>
      two_taps_b (taps cfg)
      && bool_decide (String.length (Py.str item.2) = 4%nat)
      && bool_decide (verify_prn item.1 (first_chips 10 (taps cfg)) item.2 = Ok ())
  | None => false
  end.

(** The first ten chips of a satellite read as a one followed by the last
    three digits of its marker. *)
Definition satellite_matches_marker (sid : GpsSatelliteId) : bool :=
  match dict_get satellite_id_to_g2_sequence_tap_configuration sid,
        dict_get expected_prn_starting_markers sid with
  | Some cfg, Some marker =>
      let chips := first_chips 10 (taps cfg) in
      bool_decide (String.length (Py.str marker) = 4%nat)
      && bool_decide (chips !! 0%nat = Some 1)
      && bool_decide (octal_groups (take 9 (drop 1 chips))
                      = last_three_digits marker)
  | _, _ => false
  end.

(** The relation between the tap table and the output of the dict
    comprehension: same key, and the code generated from the taps. *)
Definition generated_from (item : GpsSatelliteId * G2SequenceTapsConfiguration)
    (entry : GpsSatelliteId * GpsReplicaPrnSignal) : Prop :=
  entry.1 = item.1
  ∧ _generate_ca_code_with_taps (taps item.2) = Ok (inner entry.2).

(** An item of the marker table is verified against the output. *)
Definition verified_in (output : dict GpsReplicaPrnSignal)
    (item : GpsSatelliteId * Z) : Prop :=
  ∃ signal, dict_get output item.1 = Some signal
            ∧ verify_prn item.1 (inner signal) item.2 = Ok ().

(** The two constructions give the same result for a satellite, the
    rotation being that of the delay table. *)
Definition constructions_agree (sid : GpsSatelliteId) : bool :=
  match dict_get satellite_id_to_g2_sequence_tap_configuration sid,
        dict_get satellite_id_to_chip_delay sid with
  | Some cfg, Some delay =>
      bool_decide (_generate_ca_code_rolled_by (delay_ms delay)
                   = _generate_ca_code_with_taps (taps cfg))
  | _, _ => false
  end.

(** The two maximal-length sequences of the rotation construction. *)
Definition sequence_of (r : result (list Z)) : list Z :=
  match r with
  | Ok g => g
  | Raise _ => []
  end.

Definition g1_sequence : list Z := sequence_of (Scipy.max_len_seq 10 [10 - 3]).

Definition g2_sequence : list Z :=
  sequence_of (Scipy.max_len_seq 10 [10 - 9; 10 - 8; 10 - 6; 10 - 3; 10 - 2]).

(** The first ten chips of the rotation construction, for each rotation
    under one period. *)
Definition rolled_windows (g1 g2 : list Z) : list (list Z) :=
  map (λ d, take 10 (Np.bitwise_xor g1 (Np.roll g2 (Z.of_nat d)))) (seq 0 1023).

(** The value of a decimal digit character. *)
Definition digit_value (c : ascii) : Z := Z.of_N (N_of_ascii c) - 48.

Definition is_digit (c : ascii) : Prop := 0 ≤ digit_value c ≤ 9.

(** The digits of a reference marker behind its leading digit. *)
Definition expected_digits (marker : Z) : list ascii :=
  match Py.str marker with
  | String _ rest => list_ascii_of_string rest
  | EmptyString => []
  end.

(** The first digit, from index [digit_idx] on, whose value differs from
    that of the corresponding group of bits: its index, the value of the
    group and the digit. *)
Fixpoint first_difference (actual : list Z) (expected : list ascii)
    (digit_idx : nat) : option (nat * Z * ascii) :=
  match actual, expected with
  | a :: actual', c :: expected' =>
      if decide (a = digit_value c)
      then first_difference actual' expected' (S digit_idx)
      else Some (digit_idx, a, c)
  | _, _ => None
  end.

(** Where a sequence first disagrees with a reference marker: the groups
    of three bits behind the first bit against the digits behind the
    leading digit. *)
Definition first_mismatch (prn : list Z) (marker : Z)
  : option (nat * Z * ascii) :=
  first_difference (octal_groups (drop 1 prn)) (expected_digits marker) 0.

(** A position that Python's indexing accepts on a register of [n]
    values: [register[position - 1]] with an index in [-n, n - 1]. *)
Definition tap_readable (n : nat) (position : Z) : Prop :=
  1 - Z.of_nat n ≤ position ≤ Z.of_nat n.

#[global] Instance tap_readable_dec n position : Decision (tap_readable n position).
Proof. unfold tap_readable. apply _. Defined.

(** The position in [1, n] that a readable position stands for: positions
    below 1 count from the end of the register. *)
Definition wrap_position (n : nat) (position : Z) : Z :=
  if position <? 1 then position + Z.of_nat n else position.

(** [PRN_CHIP_COUNT] of [gypsum/constants.py]: the length of each PRN, in
    chips. *)
Definition PRN_CHIP_COUNT : Z := 1023.

(** The register of ten values left by one call of [shift] with the given
    feedback taps. *)
Definition lfsr_step (feedback register : list Z) : list Z :=
  parity_at register feedback :: take 9 register.

(** The number of steps, counted from [k], after which the register is
    first back at [start], looking at most [fuel] steps ahead. *)
Fixpoint returns_at (feedback start register : list Z) (k fuel : nat)
  : option nat :=
  match fuel with
  | O => None
  | S fuel' =>
      let register' := lfsr_step feedback register in
      if bool_decide (register' = start) then Some (S k)
      else returns_at feedback start register' (S k) fuel'
  end.

(** The tap positions 1 to 10. *)
Definition tap_positions : list Z := map Z.of_nat (seq 1 10).

(** The code generated with the same position given twice is the G1
    sequence of the rotation construction. *)
Definition duplicate_gives_g1 (a : Z) : bool :=
  bool_decide (_generate_ca_code_with_taps [a; a] = Ok g1_sequence).

(** The first ten chips of the code of a satellite of the tap table. *)
Definition ten_chips_of_satellite (sid : GpsSatelliteId) : list Z :=
  match dict_get satellite_id_to_g2_sequence_tap_configuration sid with
  | Some cfg => first_chips 10 (taps cfg)
  | None => []
  end.

(** A tap list with which generation succeeds (see [generated_total]). *)
Definition usable_taps (taps : list Z) : Prop :=
  taps_in_range 10 taps ∧ taps ≠ [].

(** A tap table in which the taps of one satellite are replaced, as by a
    transcription error in that entry. *)
Definition replace_taps (tap_table : dict G2SequenceTapsConfiguration)
    (sid : GpsSatelliteId) (taps' : list Z) : dict G2SequenceTapsConfiguration :=
  map (λ item : GpsSatelliteId * G2SequenceTapsConfiguration,
         if decide (item.1 = sid) then (item.1, {| taps := taps' |}) else item)
      tap_table.

(** The first ten chips generated with [taps'] are bits that start with a 1
    and disagree with the marker at some digit. *)
Definition mismatch_found (marker : Z) (taps' : list Z) : bool :=
  let chips := first_chips 10 taps' in
  bool_decide (chips !! 0%nat = Some 1)
  && bool_decide (Forall is_bit chips)
  && bool_decide (is_Some (first_mismatch chips marker)).

(** Every change of one of the two taps of a satellite to another position
    in [1,10] gives ten first chips that disagree with its marker. *)
Definition single_changes_detected (sid : GpsSatelliteId) : bool :=
  match dict_get satellite_id_to_g2_sequence_tap_configuration sid,
        dict_get expected_prn_starting_markers sid with
  | Some cfg, Some marker =>
      match taps cfg with
      | [a; b] =>
          bool_decide (String.get 0 (Py.str marker) = Some "1"%char)
          && bool_decide (String.length (Py.str marker) = 4%nat)
          && forallb (λ x, bool_decide (x = a) || mismatch_found marker [x; b])
                     tap_positions
          && forallb (λ x, bool_decide (x = b) || mismatch_found marker [a; x])
                     tap_positions
      | _ => false
      end
  | _, _ => false
  end.

(** The number of ones in the code generated for a satellite of the tap
    table is 512. *)
Definition code_has_512_ones (sid : GpsSatelliteId) : bool :=
  match dict_get satellite_id_to_g2_sequence_tap_configuration sid with
  | Some cfg =>
      bool_decide (Py.sum (sequence_of (_generate_ca_code_with_taps (taps cfg)))
                   = 512)
  | None => false
  end.

(** The delay of a satellite lies within one period. *)
Definition delay_in_period (sid : GpsSatelliteId) : bool :=
  match dict_get satellite_id_to_chip_delay sid with
  | Some delay => bool_decide (0 ≤ delay_ms delay < 1023)
  | None => false
  end.

(** The code generated with the single output tap [k] is the code of the
    rotation construction for the delay [k - 10]. *)
Definition single_tap_is_rotation (k : Z) : bool :=
  bool_decide (_generate_ca_code_with_taps [k]
               = Ok (Np.bitwise_xor g1_sequence (Np.roll g2_sequence (k - 10)))).

(** ** The list primitives *)

Section primitives.
Context {A : Type}.
Implicit Types (l : list A) (x : A).

Lemma getitem_nat l (i : nat) x :
  l !! i = Some x → Py.getitem l (Z.of_nat i) = Ok x.
Proof.
  intros Hl. unfold Py.getitem, Py.resolve.
  destruct (Z.ltb_spec (Z.of_nat i) 0) as [?|_]; [lia|].
  destruct (Z.ltb_spec (Z.of_nat i) 0) as [?|_]; [lia|].
  by rewrite Nat2Z.id, Hl.
Qed.

Lemma setitem_nat l (i : nat) x :
  (i < length l)%nat → Py.setitem l (Z.of_nat i) x = Ok (<[i := x]> l).
Proof.
  intros Hi. unfold Py.setitem, Py.resolve.
  destruct (Z.ltb_spec (Z.of_nat i) 0) as [?|_]; [lia|].
  destruct (Z.ltb_spec (Z.of_nat i) 0) as [?|_]; [lia|].
  rewrite Nat2Z.id.
  destruct (lookup_lt_is_Some_2 l i Hi) as [y ->]. done.
Qed.

Lemma getitem_take l (n : nat) (i : nat) :
  (i < n)%nat → Py.getitem (take n l) (Z.of_nat i) = Py.getitem l (Z.of_nat i).
Proof.
  intros Hi. unfold Py.getitem, Py.resolve.
  destruct (Z.ltb_spec (Z.of_nat i) 0) as [?|_]; [lia|].
  destruct (Z.ltb_spec (Z.of_nat i) 0) as [?|_]; [lia|].
  by rewrite Nat2Z.id, lookup_take_lt.
Qed.
End primitives.

Lemma getitem_position (register : list Z) (position : Z) :
  1 ≤ position ≤ Z.of_nat (length register) →
  Py.getitem register (position - 1) = Ok (at_position register position).
Proof.
  intros Hp. unfold at_position.
  assert (Z.to_nat (position - 1) < length register)%nat as Hlt by lia.
  destruct (lookup_lt_is_Some_2 _ _ Hlt) as [x Hx].
  rewrite (list_lookup_total_correct _ _ _ Hx).
  rewrite <- (Z2Nat.id (position - 1)) by lia.
  by apply getitem_nat.
Qed.

Lemma read_positions (register : list Z) (positions : list Z) :
  taps_in_range (length register) positions →
  mapM (λ i, Py.getitem register (i - 1)) positions
  = Ok (map (at_position register) positions).
Proof.
  induction 1 as [|p ps Hp _ IH]; [done|].
  cbn [mapM map]. rewrite (getitem_position _ _ Hp). cbn.
  fold (mapM (λ i, Py.getitem register (i - 1)) ps). by rewrite IH.
Qed.

Lemma mod2_is_bit (z : Z) : is_bit (z mod 2).
Proof. unfold is_bit. pose proof (Z.mod_pos_bound z 2). lia. Qed.

Lemma at_position_is_bit (register : list Z) (position : Z) :
  Forall is_bit register →
  1 ≤ position ≤ Z.of_nat (length register) →
  is_bit (at_position register position).
Proof.
  intros Hall Hp. unfold at_position.
  assert (Z.to_nat (position - 1) < length register)%nat as Hlt by lia.
  destruct (lookup_lt_is_Some_2 _ _ Hlt) as [x Hx].
  rewrite (list_lookup_total_correct _ _ _ Hx).
  by eapply Forall_lookup_1.
Qed.

(** ** The shift register *)

Lemma shift_reads_spec (register feedback output : list Z) :
  taps_in_range (length register) feedback →
  taps_in_range (length register) output →
  output ≠ [] →
  shift_reads register feedback output
  = Ok (output_value register output, parity_at register feedback).
Proof.
  intros Hfb Hout Hne. unfold shift_reads.
  rewrite (read_positions _ _ Hout), (read_positions _ _ Hfb). cbn.
  destruct output as [|p [|q output]]; [done| |]; cbn; [done|].
  rewrite length_map.
  destruct (Z.ltb_spec 1 (Z.of_nat (S (S (length output))))) as [_|?]; [done|lia].
Qed.

(** The feedback value does not depend on the output taps. *)
Lemma shift_reads_feedback (register feedback output : list Z) out fb :
  taps_in_range (length register) feedback →
  shift_reads register feedback output = Ok (out, fb) →
  fb = parity_at register feedback.
Proof.
  intros Hfb. unfold shift_reads.
  destruct (mapM _ output) as [outs|]; cbn; [|done].
  destruct (if 1 <? _ then _ else _) as [o|]; cbn; [|done].
  rewrite (read_positions _ _ Hfb). cbn. by intros [= _ <-].
Qed.

(** The loop of lines 116-117 copies positions [0..k-1] to [1..k]. *)
Lemma shift_right_spec (k : nat) (register : list Z) :
  (k < length register)%nat →
  shift_right k register
  = (take 1 register ++ take k register ++ drop (S k) register, Ok ()).
Proof.
  revert register. induction k as [|i IH]; intros register Hk.
  - cbn [shift_right]. change (take 0 register) with (@nil Z).
    by rewrite app_nil_l, take_drop.
  - cbn [shift_right].
    destruct (lookup_lt_is_Some_2 register i ltac:(lia)) as [x Hx].
    rewrite (getitem_nat _ _ _ Hx).
    replace (Z.of_nat i + 1) with (Z.of_nat (S i)) by lia.
    rewrite setitem_nat by done.
    rewrite IH by (rewrite length_insert; lia).
    f_equal.
    rewrite !take_insert_ge by lia.
    rewrite drop_insert_ge by lia.
    rewrite Nat.sub_diag, (take_S_r _ _ _ Hx).
    destruct (lookup_lt_is_Some_2 register (S i) Hk) as [y Hy].
    rewrite (drop_S _ _ _ Hy). cbn [insert list_insert].
    by rewrite <- !app_assoc.
Qed.

Lemma shift_writes_spec (register : list Z) (fb : Z) :
  register ≠ [] →
  shift_writes register fb
  = (fb :: take (length register - 1) register, Ok ()).
Proof.
  intros Hne. unfold shift_writes.
  destruct register as [|x register]; [done|].
  rewrite shift_right_spec by (cbn; lia).
  cbn [length]. rewrite Nat.sub_succ, Nat.sub_0_r.
  rewrite (drop_ge (x :: register)) by (cbn; lia).
  rewrite app_nil_r. cbn. done.
Qed.

Lemma taps_in_range_nonempty (n : nat) (positions : list Z) :
  taps_in_range n positions → positions ≠ [] → n ≠ 0%nat.
Proof.
  intros Hr Hne ->. destruct Hr as [|p ps Hp _]; [done|]. lia.
Qed.

(** A successful call: the value returned and the register left behind. *)
Lemma shift_spec (register feedback output : list Z) :
  taps_in_range (length register) feedback →
  taps_in_range (length register) output →
  output ≠ [] →
  shift register feedback output
  = (parity_at register feedback :: take (length register - 1) register,
     Ok (output_value register output)).
Proof.
  intros Hfb Hout Hne. unfold shift.
  rewrite shift_reads_spec by done.
  rewrite shift_writes_spec; [done|].
  intros ->. by apply (taps_in_range_nonempty _ _ Hout Hne).
Qed.

(** Whatever the output taps, the register is either left as it was (an
    exception was raised while reading) or shifted. *)
Lemma shift_register_cases (register feedback output : list Z) :
  register ≠ [] →
  taps_in_range (length register) feedback →
  (shift register feedback output).1 = register
  ∨ (shift register feedback output).1
    = parity_at register feedback :: take (length register - 1) register.
Proof.
  intros Hne Hfb. unfold shift.
  destruct (shift_reads register feedback output) as [[out fb]|e] eqn:Hreads;
    [|by left].
  right. rewrite shift_writes_spec by done.
  by rewrite (shift_reads_feedback _ _ _ _ _ Hfb Hreads).
Qed.

Lemma shifted_valid (register : list Z) (fb : Z) :
  valid_register register → is_bit fb →
  valid_register (fb :: take (length register - 1) register).
Proof.
  intros [Hlen Hbits] Hfb. split.
  - cbn. rewrite length_take. lia.
  - constructor; [done|]. by apply Forall_take.
Qed.

Lemma valid_register_nonempty (register : list Z) :
  valid_register register → register ≠ [].
Proof. by intros [Hlen _] ->. Qed.

Lemma output_value_is_bit (register output : list Z) :
  Forall is_bit register →
  taps_in_range (length register) output →
  is_bit (output_value register output).
Proof.
  intros Hbits Hout. unfold output_value.
  destruct output as [|p [|q output]]; try apply mod2_is_bit.
  apply at_position_is_bit; [done|]. by inversion Hout.
Qed.

(** ** The Gold-code loop *)

Lemma g1_taps_in_range : taps_in_range 10 [3; 10] ∧ taps_in_range 10 [10].
Proof. split; repeat constructor; lia. Qed.

Lemma g2_taps_in_range : taps_in_range 10 [2; 3; 6; 8; 9; 10].
Proof. repeat constructor; lia. Qed.

(** One iteration on valid registers, with usable G2 output taps. *)
Lemma ca_step_spec (taps : list Z) (G1 G2 ca : list Z) :
  valid_register G1 → valid_register G2 →
  taps_in_range 10 taps → taps ≠ [] →
  ca_step taps (G1, G2, ca)
  = Ok (parity_at G1 [3; 10] :: take 9 G1,
        parity_at G2 [2; 3; 6; 8; 9; 10] :: take 9 G2,
        ca ++ [(output_value G1 [10] + output_value G2 taps) mod 2]).
Proof.
  intros [Hlen1 Hbits1] [Hlen2 Hbits2] Htaps Hne. unfold ca_step.
  destruct g1_taps_in_range as [Hfb1 Hout1].
  rewrite !shift_spec; rewrite ?Hlen1, ?Hlen2; try done.
  apply g2_taps_in_range.
Qed.

Lemma ca_step_valid (taps : list Z) (G1 G2 ca : list Z) :
  valid_register G1 → valid_register G2 →
  valid_register (parity_at G1 [3; 10] :: take 9 G1)
  ∧ valid_register (parity_at G2 [2; 3; 6; 8; 9; 10] :: take 9 G2).
Proof.
  intros H1 H2. split.
  - replace 9%nat with (length G1 - 1)%nat by (destruct H1 as [-> _]; done).
    apply shifted_valid, mod2_is_bit; done.
  - replace 9%nat with (length G2 - 1)%nat by (destruct H2 as [-> _]; done).
    apply shifted_valid, mod2_is_bit; done.
Qed.

(** The loop never raises on valid registers: [n] iterations leave valid
    registers and append [n] binary chips. *)
Lemma ca_loop_total (taps : list Z) (n : nat) (G1 G2 ca : list Z) :
  valid_register G1 → valid_register G2 →
  taps_in_range 10 taps → taps ≠ [] →
  ∃ G1' G2' chips,
    ca_loop n taps (G1, G2, ca) = Ok (G1', G2', ca ++ chips)
    ∧ valid_register G1' ∧ valid_register G2'
    ∧ length chips = n ∧ Forall is_bit chips.
Proof.
  intros H1 H2 Htaps Hne. revert G1 G2 ca H1 H2.
  induction n as [|n IH]; intros G1 G2 ca H1 H2.
  - exists G1, G2, []. rewrite app_nil_r.
    split; [done|]. split; [done|]. split; [done|]. split; [done|constructor].
  - cbn [ca_loop]. rewrite ca_step_spec by done. cbn [mbind result_bind].
    destruct (ca_step_valid taps G1 G2 ca H1 H2) as [H1' H2'].
    destruct (IH _ _ (ca ++ [(output_value G1 [10] + output_value G2 taps) mod 2])
                H1' H2')
      as (G1' & G2' & chips & Hloop & Hv1 & Hv2 & Hlen & Hbits).
    exists G1', G2', (((output_value G1 [10] + output_value G2 taps) mod 2) :: chips).
    rewrite Hloop, <- app_assoc. cbn [app].
    split; [done|]. split; [done|]. split; [done|].
    split; [cbn [length]; by rewrite Hlen|].
    constructor; [apply mod2_is_bit|done].
Qed.

(** Iterations compose. *)
Lemma ca_loop_add (taps : list Z) (n m : nat) (st : ca_state) :
  ca_loop (n + m) taps st = ca_loop n taps st ≫= ca_loop m taps.
Proof.
  revert st. induction n as [|n IH]; intros st; [done|].
  cbn [Nat.add ca_loop]. destruct (ca_step taps st) as [st'|e]; cbn; [|done].
  apply IH.
Qed.

(** The loop only ever appends to the code. *)
Lemma ca_step_extends (taps : list Z) (G1 G2 ca : list Z) (st' : ca_state) :
  ca_step taps (G1, G2, ca) = Ok st' → ∃ chip, st'.2 = ca ++ [chip].
Proof.
  unfold ca_step.
  destruct (shift G1 _ _) as [G1' [g1|e]]; [|done].
  destruct (shift G2 _ _) as [G2' [g2|e]]; [|done].
  intros [= <-]. by eexists.
Qed.

Lemma ca_loop_extends (taps : list Z) (n : nat) (st st' : ca_state) :
  ca_loop n taps st = Ok st' →
  ∃ chips, st'.2 = st.2 ++ chips ∧ length chips = n.
Proof.
  revert st. induction n as [|n IH]; intros st.
  - intros [= <-]. exists []. by rewrite app_nil_r.
  - cbn [ca_loop]. destruct (ca_step taps st) as [st1|e] eqn:Hstep; cbn; [|done].
    intros Hloop. destruct st as [[G1 G2] ca].
    destruct (ca_step_extends _ _ _ _ _ Hstep) as [chip Hchip].
    destruct (IH _ Hloop) as (chips & Hchips & Hlen).
    exists (chip :: chips). cbn. rewrite Hchips, Hchip, <- app_assoc.
    split; [done|by rewrite Hlen].
Qed.

(** The first [k] chips of a generated code are what [k] iterations give. *)
Lemma generated_prefix (taps : list Z) (k : nat) (prn : list Z) (st : ca_state) :
  (k ≤ 1023)%nat →
  _generate_ca_code_with_taps taps = Ok prn →
  ca_loop k taps ca_init = Ok st →
  take k prn = st.2.
Proof.
  intros Hk Hgen Hloop. unfold _generate_ca_code_with_taps in Hgen.
  replace 1023%nat with (k + (1023 - k))%nat in Hgen by lia.
  rewrite ca_loop_add, Hloop in Hgen. cbn in Hgen.
  destruct (ca_loop (1023 - k) taps st) as [st'|e] eqn:Hrest; [|done].
  cbn in Hgen. injection Hgen as <-.
  destruct (ca_loop_extends _ _ _ _ Hrest) as (chips & -> & _).
  destruct (ca_loop_extends _ _ _ _ Hloop) as (chips0 & Hst & Hlen).
  cbn in Hst. rewrite take_app_length'; [done|]. by rewrite Hst.
Qed.

(** Generation succeeds for every usable tap list. *)
Lemma generated_total (taps : list Z) :
  taps_in_range 10 taps → taps ≠ [] →
  ∃ prn, _generate_ca_code_with_taps taps = Ok prn
         ∧ length prn = 1023%nat ∧ Forall is_bit prn.
Proof.
  intros Htaps Hne.
  assert (valid_register (replicate 10 1)) as Hones.
  { split; [done|]. apply Forall_replicate. by right. }
  destruct (ca_loop_total taps 1023 _ _ [] Hones Hones Htaps Hne)
    as (G1 & G2 & chips & Hloop & _ & _ & Hlen & Hbits).
  exists chips. unfold _generate_ca_code_with_taps, ca_init.
  by rewrite Hloop.
Qed.

(** ** The register invariant *)

Lemma shift_valid (register feedback output : list Z) :
  valid_register register →
  taps_in_range 10 feedback →
  valid_register (shift register feedback output).1.
Proof.
  intros Hv Hfb.
  assert (taps_in_range (length register) feedback) as Hfb'.
  { by destruct Hv as [-> _]. }
  destruct (shift_register_cases register feedback output
              (valid_register_nonempty _ Hv) Hfb') as [-> | ->]; [done|].
  apply shifted_valid, mod2_is_bit. done.
Qed.

Lemma ca_step_keeps_valid (taps : list Z) (G1 G2 ca : list Z) (st' : ca_state) :
  valid_register G1 → valid_register G2 →
  ca_step taps (G1, G2, ca) = Ok st' →
  valid_register st'.1.1 ∧ valid_register st'.1.2.
Proof.
  intros H1 H2. unfold ca_step.
  pose proof (shift_valid G1 [3; 10] [10] H1 (proj1 g1_taps_in_range)) as H1'.
  pose proof (shift_valid G2 [2; 3; 6; 8; 9; 10] taps H2 g2_taps_in_range) as H2'.
  destruct (shift G1 _ _) as [G1' [g1|e]]; [|done].
  destruct (shift G2 _ _) as [G2' [g2|e]]; [|done].
  by intros [= <-].
Qed.

Lemma ca_loop_keeps_valid (taps : list Z) (n : nat) (G1 G2 ca : list Z)
    (st' : ca_state) :
  valid_register G1 → valid_register G2 →
  ca_loop n taps (G1, G2, ca) = Ok st' →
  valid_register st'.1.1 ∧ valid_register st'.1.2.
Proof.
  revert G1 G2 ca. induction n as [|n IH]; intros G1 G2 ca H1 H2.
  - by intros [= <-].
  - cbn [ca_loop].
    destruct (ca_step taps (G1, G2, ca)) as [[[G1' G2'] ca']|e] eqn:Hstep;
      cbn [mbind result_bind]; [|done].
    destruct (ca_step_keeps_valid _ _ _ _ _ H1 H2 Hstep) as [H1' H2'].
    by apply IH.
Qed.

Lemma ones_valid : valid_register (replicate 10 1).
Proof. split; [done|]. apply Forall_replicate. by right. Qed.

(** C6: on a register of ten binary values, with non-empty tap lists whose
    positions lie in [1,10], [shift] returns the value the register held at
    the single output tap, or the sum modulo 2 of the values it held at the
    output taps when there are several; it leaves the register with every
    value moved one position to the right and, in position 1, the sum
    modulo 2 of the values it held at the feedback taps. *)
Theorem shift_output_and_update (register feedback output : list Z) :
  valid_register register →
  feedback ≠ [] → output ≠ [] →
  taps_in_range 10 feedback → taps_in_range 10 output →
  ∃ register' out,
    shift register feedback output = (register', Ok out)
    ∧ (∀ position, output = [position] → out = at_position register position)
    ∧ ((1 < length output)%nat →
       out = Py.sum (map (at_position register) output) mod 2)
    ∧ length register' = 10%nat
    ∧ register' !! 0%nat
      = Some (Py.sum (map (at_position register) feedback) mod 2)
    ∧ (∀ i, (i < 9)%nat → register' !! S i = register !! i).
Proof.
  intros [Hlen Hbits] _ Hne Hfb Hout.
  rewrite <- Hlen in Hfb, Hout.
  eexists _, _. split; [by apply shift_spec|].
  split; [by intros position ->|].
  split.
  { destruct output as [|p [|q output]]; cbn [length]; [lia|lia|done]. }
  split; [cbn; rewrite length_take; lia|].
  split; [done|].
  intros i Hi. rewrite lookup_cons. apply lookup_take_lt. lia.
Qed.

Lemma shift_output_and_update_witness :
  ∃ register' out,
    shift [1; 0; 1; 1; 0; 0; 1; 0; 1; 0] [3; 10] [2; 6] = (register', Ok out)
    ∧ out = 0 ∧ register' = [1; 1; 0; 1; 1; 0; 0; 1; 0; 1].
Proof.
  destruct (shift_output_and_update [1; 0; 1; 1; 0; 0; 1; 0; 1; 0] [3; 10] [2; 6])
    as (register' & out & Hshift & _ & Hout & _);
    [ split; [reflexivity|]; repeat constructor; (by left) || (by right)
    | done | done | repeat constructor; lia | repeat constructor; lia | ].
  exists register', out. split; [exact Hshift|].
  split; [rewrite Hout; [reflexivity | cbn; lia] |].
  revert Hshift. vm_compute. by intros [= <- _].
Defined.

(** C9: a call of [shift] on a register of ten binary values with feedback
    taps in [1,10] leaves a register of ten binary values, whatever the
    output taps; and in a Gold-code generation run the G1 and G2 registers
    are such registers after each of the 1023 iterations. *)
Theorem registers_stay_valid :
  (∀ register feedback output,
     valid_register register → taps_in_range 10 feedback →
     valid_register (shift register feedback output).1)
  ∧ (∀ taps k G1 G2 ca,
       (k ≤ 1023)%nat →
       ca_loop k taps ca_init = Ok (G1, G2, ca) →
       valid_register G1 ∧ valid_register G2)
  ∧ (∀ taps k,
       taps_in_range 10 taps → taps ≠ [] → (k ≤ 1023)%nat →
       ∃ G1 G2 ca,
         ca_loop k taps ca_init = Ok (G1, G2, ca)
         ∧ valid_register G1 ∧ valid_register G2 ∧ length ca = k).
Proof.
  split; [exact shift_valid|]. split.
  - intros taps k G1 G2 ca _ Hloop.
    exact (ca_loop_keeps_valid _ _ _ _ _ _ ones_valid ones_valid Hloop).
  - intros taps k Htaps Hne _.
    destruct (ca_loop_total taps k _ _ [] ones_valid ones_valid Htaps Hne)
      as (G1 & G2 & chips & Hloop & H1 & H2 & Hlen & _).
    by exists G1, G2, chips.
Qed.

Lemma registers_stay_valid_witness :
  valid_register (shift (replicate 10 1) [3; 10] [10]).1
  ∧ ∃ G1 G2 ca,
      ca_loop 1023 [2; 6] ca_init = Ok (G1, G2, ca)
      ∧ valid_register G1 ∧ valid_register G2 ∧ length ca = 1023%nat.
Proof.
  destruct registers_stay_valid as (Hshift & _ & Hrun). split.
  - apply Hshift; [split; [reflexivity|]; repeat constructor; by right|].
    repeat constructor; lia.
  - apply Hrun; [repeat constructor; lia | done | lia].
Defined.

(** ** The satellite tables *)

Lemma satellite_in_range (sid : GpsSatelliteId) :
  1 ≤ id sid ≤ 32 → sid ∈ satellite_ids.
Proof.
  intros Hid. destruct sid as [n]. cbn in Hid. unfold satellite_ids.
  apply list_elem_of_fmap. exists (Z.to_nat n). split.
  - unfold sat. f_equal. lia.
  - apply elem_of_seq. lia.
Qed.

(** A check made on each of the 32 identifiers holds of every identifier
    in range. *)
Lemma for_all_satellites (check : GpsSatelliteId → bool) (sid : GpsSatelliteId) :
  forallb check satellite_ids = true →
  1 ≤ id sid ≤ 32 → check sid = true.
Proof.
  intros Hall Hid. rewrite forallb_forall in Hall.
  apply Hall, list_elem_of_In, satellite_in_range, Hid.
Qed.

Lemma two_taps_b_spec (taps : list Z) : two_taps_b taps = true → two_taps taps.
Proof.
  unfold two_taps_b, two_taps.
  destruct taps as [|a [|b [|c taps]]]; try done.
  rewrite !andb_true_iff, !bool_decide_eq_true. intros [[Hne Ha] Hb].
  by exists a, b.
Qed.

Lemma two_taps_usable (taps : list Z) :
  two_taps taps → taps_in_range 10 taps ∧ taps ≠ [].
Proof.
  intros (a & b & -> & _ & Ha & Hb). split; [|done].
  repeat constructor; lia.
Qed.

Lemma table_entries_two_taps :
  forallb table_entry_two_taps satellite_ids = true.
Proof. vm_compute. reflexivity. Qed.

Lemma table_entry (sid : GpsSatelliteId) :
  1 ≤ id sid ≤ 32 →
  ∃ cfg, dict_get satellite_id_to_g2_sequence_tap_configuration sid = Some cfg
         ∧ two_taps (taps cfg).
Proof.
  intros Hid.
  pose proof (for_all_satellites _ sid table_entries_two_taps Hid) as Hcheck.
  unfold table_entry_two_taps in Hcheck.
  destruct (dict_get _ sid) as [cfg|]; [|done].
  exists cfg. split; [done|]. by apply two_taps_b_spec.
Qed.

(** ** The first chip *)

Lemma at_position_ones (position : Z) :
  1 ≤ position ≤ 10 → at_position (replicate 10 1) position = 1.
Proof.
  intros Hp. unfold at_position.
  apply list_lookup_total_correct, lookup_replicate_2. lia.
Qed.

Lemma first_chip_two_taps (taps : list Z) :
  two_taps taps →
  ∃ G1 G2, ca_loop 1 taps ca_init = Ok (G1, G2, [1]).
Proof.
  intros Htwo. destruct (two_taps_usable _ Htwo) as [Hrange Hne].
  destruct Htwo as (a & b & -> & _ & Ha & Hb).
  cbn [ca_loop]. unfold ca_init.
  rewrite ca_step_spec by (done || apply ones_valid).
  cbn [mbind result_bind]. eexists _, _. do 2 f_equal.
  cbn [output_value]. unfold parity_at. cbn [map].
  by rewrite !at_position_ones by lia.
Qed.

(** C3: for every satellite id in [1,32] the table holds a configuration of
    two distinct tap positions in [1,10], and the code generated from it has
    exactly 1023 elements, each 0 or 1, the first one being 1; the same
    holds of the code generated from any such configuration. *)
Theorem chip_sequence_shape :
  (∀ sid, 1 ≤ id sid ≤ 32 →
     ∃ cfg prn,
       dict_get satellite_id_to_g2_sequence_tap_configuration sid = Some cfg
       ∧ two_taps (taps cfg)
       ∧ _generate_ca_code_with_taps (taps cfg) = Ok prn
       ∧ length prn = 1023%nat ∧ Forall is_bit prn ∧ prn !! 0%nat = Some 1)
  ∧ (∀ taps, two_taps taps →
       ∃ prn, _generate_ca_code_with_taps taps = Ok prn
              ∧ length prn = 1023%nat ∧ Forall is_bit prn
              ∧ prn !! 0%nat = Some 1).
Proof.
  assert (∀ taps, two_taps taps →
            ∃ prn, _generate_ca_code_with_taps taps = Ok prn
                   ∧ length prn = 1023%nat ∧ Forall is_bit prn
                   ∧ prn !! 0%nat = Some 1) as Hgen.
  { intros taps Htwo. destruct (two_taps_usable _ Htwo) as [Hrange Hne].
    destruct (generated_total taps Hrange Hne) as (prn & Hprn & Hlen & Hbits).
    destruct (first_chip_two_taps taps Htwo) as (G1 & G2 & Hfirst).
    exists prn. repeat (split; [done|]).
    pose proof (generated_prefix taps 1 prn _ ltac:(lia) Hprn Hfirst) as Htake.
    cbn [snd] in Htake. destruct prn as [|chip prn]; [done|].
    by injection Htake as ->. }
  split; [|exact Hgen].
  intros sid Hid. destruct (table_entry sid Hid) as (cfg & Hcfg & Htwo).
  destruct (Hgen _ Htwo) as (prn & Hprn). by exists cfg, prn.
Qed.

Lemma chip_sequence_shape_witness :
  ∃ cfg prn,
    dict_get satellite_id_to_g2_sequence_tap_configuration (sat 23) = Some cfg
    ∧ taps cfg = [1; 3]
    ∧ _generate_ca_code_with_taps (taps cfg) = Ok prn
    ∧ length prn = 1023%nat ∧ Forall is_bit prn ∧ prn !! 0%nat = Some 1.
Proof.
  destruct (proj1 chip_sequence_shape (sat 23))
    as (cfg & prn & Hcfg & _ & Hrest); [cbn; lia|].
  exists cfg, prn. split; [exact Hcfg|]. split; [|exact Hrest].
  revert Hcfg. vm_compute. by intros [= <-].
Defined.

(** ** The verification pass reads a prefix of the signal *)

Lemma take_drop_take {A} (l : list A) (a b n : nat) :
  (a + b ≤ n)%nat → take a (drop b (take n l)) = take a (drop b l).
Proof.
  intros Hn. rewrite skipn_firstn_comm, take_take. f_equal. lia.
Qed.

Lemma verify_digits_take (sid : GpsSatelliteId) (digits : string)
    (digit_idx n : nat) (prn : list Z) :
  (3 * (digit_idx + String.length digits) ≤ n)%nat →
  verify_digits sid (take n prn) digit_idx digits
  = verify_digits sid prn digit_idx digits.
Proof.
  revert digit_idx. induction digits as [|c digits IH]; intros digit_idx Hn;
    [done|].
  cbn [String.length] in Hn. cbn [verify_digits].
  rewrite take_drop_take by lia.
  rewrite IH by lia. done.
Qed.

Lemma verify_prn_take (sid : GpsSatelliteId) (marker : Z) (n : nat)
    (prn : list Z) :
  (1 ≤ n)%nat →
  (1 + 3 * (String.length (Py.str marker) - 1) ≤ n)%nat →
  verify_prn sid (take n prn) marker = verify_prn sid prn marker.
Proof.
  intros Hpos Hn. unfold verify_prn.
  destruct (Py.str marker) as [|c rest]; [done|].
  cbn [String.length] in Hn.
  destruct (negb _); [done|].
  change (Py.getitem (take n prn) 0) with (Py.getitem (take n prn) (Z.of_nat 0)).
  rewrite (getitem_take prn n 0 Hpos).
  destruct (Py.getitem prn _) as [prn0|e]; cbn [mbind result_bind]; [|done].
  destruct (decide (prn0 ≠ 1)); [done|].
  rewrite skipn_firstn_comm. apply verify_digits_take. cbn [Nat.add]. lia.
Qed.

(** ** The generated table and its verification *)

Lemma generate_output_spec (tap_table : dict G2SequenceTapsConfiguration)
    (output : dict GpsReplicaPrnSignal) :
  generate_output tap_table = Ok output →
  Forall2 generated_from tap_table output.
Proof.
  revert output. induction tap_table as [|item tap_table IH]; intros output.
  - intros [= <-]. constructor.
  - unfold generate_output. cbn [mapM].
    destruct (_generate_ca_code_with_taps (taps item.2)) as [prn|e] eqn:Hprn;
      cbn [mbind result_bind]; [|done].
    fold (generate_output tap_table).
    destruct (generate_output tap_table) as [output'|e];
      cbn [mbind result_bind mret result_ret]; [|done].
    intros [= <-]. constructor; [by split|by apply IH].
Qed.

Lemma generate_output_total (tap_table : dict G2SequenceTapsConfiguration) :
  Forall (λ item, two_taps (taps item.2)) tap_table →
  ∃ output, generate_output tap_table = Ok output.
Proof.
  induction 1 as [|item tap_table Htwo _ [output IH]]; [by exists []|].
  destruct (two_taps_usable _ Htwo) as [Hrange Hne].
  destruct (generated_total _ Hrange Hne) as (prn & Hprn & _).
  unfold generate_output in *. cbn [mapM].
  rewrite Hprn. cbn [mbind result_bind]. rewrite IH.
  cbn [mbind result_bind mret result_ret]. by eexists.
Qed.

Lemma generated_lookup (tap_table : dict G2SequenceTapsConfiguration)
    (output : dict GpsReplicaPrnSignal) (sid : GpsSatelliteId)
    (cfg : G2SequenceTapsConfiguration) :
  Forall2 generated_from tap_table output →
  dict_get tap_table sid = Some cfg →
  ∃ signal, dict_get output sid = Some signal
            ∧ _generate_ca_code_with_taps (taps cfg) = Ok (inner signal).
Proof.
  induction 1 as [|[k c] [k' signal] tap_table output [Hkey Hgen] _ IH]; [done|].
  cbn in Hkey, Hgen. subst k'. cbn [dict_get].
  destruct (decide (k = sid)); [|done].
  intros [= <-]. by exists signal.
Qed.

Lemma generated_keys (tap_table : dict G2SequenceTapsConfiguration)
    (output : dict GpsReplicaPrnSignal) :
  Forall2 generated_from tap_table output →
  map fst output = map fst tap_table.
Proof.
  induction 1 as [|item entry tap_table output [Hkey _] _ IH]; [done|].
  cbn. by rewrite Hkey, IH.
Qed.

Lemma verify_all_spec (output : dict GpsReplicaPrnSignal) (markers : dict Z) :
  verify_all output markers = Ok () ↔ Forall (verified_in output) markers.
Proof.
  induction markers as [|[sid marker] markers IH]; [by split; [constructor|]|].
  cbn [verify_all]. unfold dict_getitem. split.
  - destruct (dict_get output sid) as [signal|] eqn:Hget;
      cbn [mbind result_bind]; [|done].
    destruct (verify_prn sid (inner signal) marker) as [[]|e] eqn:Hverify;
      cbn [mbind result_bind]; [|done].
    intros Hrest. constructor; [by exists signal|by apply IH].
  - intros Hall. inversion Hall as [|? ? (signal & Hget & Hverify) Hrest]; subst.
    cbn in Hget, Hverify. rewrite Hget. cbn [mbind result_bind].
    rewrite Hverify. cbn [mbind result_bind]. by apply IH.
Qed.

(** The result of [generate_replica_prn_signals], for any two tables. *)
Lemma generate_replica_prn_signals_from_spec
    (tap_table : dict G2SequenceTapsConfiguration) (markers : dict Z)
    (output : dict GpsReplicaPrnSignal) :
  generate_replica_prn_signals_from tap_table markers = Ok output
  ↔ generate_output tap_table = Ok output
    ∧ verify_all output markers = Ok ().
Proof.
  unfold generate_replica_prn_signals_from.
  destruct (generate_output tap_table) as [output'|e];
    cbn [mbind result_bind]; [|by split; [|intros [? _]]].
  destruct (verify_all output' markers) as [[]|e] eqn:Hverify;
    cbn [mbind result_bind].
  - split; [by intros [= <-]|by intros [[= <-] _]].
  - split; [done|]. intros [[= <-] Hv]. congruence.
Qed.

(** ** The tables of the source verify *)

Lemma generated_first_chips (taps : list Z) (k : nat) (prn : list Z) :
  taps_in_range 10 taps → taps ≠ [] → (k ≤ 1023)%nat →
  _generate_ca_code_with_taps taps = Ok prn →
  take k prn = first_chips k taps.
Proof.
  intros Hrange Hne Hk Hprn.
  destruct (ca_loop_total taps k _ _ [] ones_valid ones_valid Hrange Hne)
    as (G1 & G2 & chips & Hloop & _).
  fold ca_init in Hloop. unfold first_chips. rewrite Hloop.
  exact (generated_prefix taps k prn _ Hk Hprn Hloop).
Qed.

Lemma table_all_two_taps :
  Forall (λ item : GpsSatelliteId * G2SequenceTapsConfiguration,
            two_taps (taps item.2))
         satellite_id_to_g2_sequence_tap_configuration.
Proof.
  apply Forall_forall. intros item Hin. apply two_taps_b_spec.
  assert (forallb (λ item : GpsSatelliteId * G2SequenceTapsConfiguration,
                     two_taps_b (taps item.2))
            satellite_id_to_g2_sequence_tap_configuration = true) as Hall
    by (vm_compute; reflexivity).
  rewrite forallb_forall in Hall. by apply Hall, list_elem_of_In.
Qed.

Lemma markers_verify :
  forallb marker_entry_verifies expected_prn_starting_markers = true.
Proof. vm_compute. reflexivity. Qed.

Lemma satellites_match_markers :
  forallb satellite_matches_marker satellite_ids = true.
Proof. vm_compute. reflexivity. Qed.

(** An item of the marker table is verified in any output generated from
    the tap table. *)
Lemma marker_entry_verified (output : dict GpsReplicaPrnSignal)
    (item : GpsSatelliteId * Z) :
  Forall2 generated_from satellite_id_to_g2_sequence_tap_configuration output →
  marker_entry_verifies item = true →
  verified_in output item.
Proof.
  intros Hgen. unfold marker_entry_verifies.
  destruct (dict_get _ item.1) as [cfg|] eqn:Hcfg; [|done].
  rewrite !andb_true_iff, !bool_decide_eq_true.
  intros [[Htwo Hlen] Hverify]. apply two_taps_b_spec in Htwo.
  destruct (two_taps_usable _ Htwo) as [Hrange Hne].
  destruct (generated_lookup _ _ _ _ Hgen Hcfg) as (signal & Hget & Hprn).
  exists signal. split; [done|].
  rewrite <- (verify_prn_take _ _ 10) by (rewrite ?Hlen; cbn; lia).
  by rewrite (generated_first_chips _ 10 _ Hrange Hne ltac:(lia) Hprn).
Qed.

Lemma generate_replica_prn_signals_ok :
  ∃ output,
    generate_replica_prn_signals = Ok output
    ∧ Forall2 generated_from satellite_id_to_g2_sequence_tap_configuration output
    ∧ Forall (verified_in output) expected_prn_starting_markers.
Proof.
  destruct (generate_output_total _ table_all_two_taps) as [output Hout].
  pose proof (generate_output_spec _ _ Hout) as Hgen.
  assert (Forall (verified_in output) expected_prn_starting_markers) as Hver.
  { apply Forall_forall. intros item Hin.
    apply marker_entry_verified; [done|].
    pose proof markers_verify as Hall. rewrite forallb_forall in Hall.
    by apply Hall, list_elem_of_In. }
  exists output. split; [|split; assumption].
  apply generate_replica_prn_signals_from_spec. split; [assumption|].
  apply verify_all_spec. assumption.
Qed.

(** What the output holds for a satellite in range. *)
Lemma output_entry (output : dict GpsReplicaPrnSignal) (sid : GpsSatelliteId) :
  Forall2 generated_from satellite_id_to_g2_sequence_tap_configuration output →
  1 ≤ id sid ≤ 32 →
  ∃ cfg signal marker,
    dict_get satellite_id_to_g2_sequence_tap_configuration sid = Some cfg
    ∧ dict_get output sid = Some signal
    ∧ dict_get expected_prn_starting_markers sid = Some marker
    ∧ _generate_ca_code_with_taps (taps cfg) = Ok (inner signal)
    ∧ take 10 (inner signal) = first_chips 10 (taps cfg)
    ∧ String.length (Py.str marker) = 4%nat
    ∧ first_chips 10 (taps cfg) !! 0%nat = Some 1
    ∧ octal_groups (take 9 (drop 1 (first_chips 10 (taps cfg))))
      = last_three_digits marker.
Proof.
  intros Hgen Hid.
  destruct (table_entry sid Hid) as (cfg & Hcfg & Htwo).
  destruct (two_taps_usable _ Htwo) as [Hrange Hne].
  destruct (generated_lookup _ _ _ _ Hgen Hcfg) as (signal & Hget & Hprn).
  pose proof (for_all_satellites _ sid satellites_match_markers Hid) as Hcheck.
  unfold satellite_matches_marker in Hcheck. rewrite Hcfg in Hcheck.
  destruct (dict_get expected_prn_starting_markers sid) as [marker|]; [|done].
  rewrite !andb_true_iff, !bool_decide_eq_true in Hcheck.
  destruct Hcheck as [[Hlen Hfirst] Hgroups].
  exists cfg, signal, marker. repeat (split; [done|]).
  split; [|done].
  apply generated_first_chips; [assumption|assumption|lia|assumption].
Qed.

(** C2: with the tap table and the marker table of the source,
    [generate_replica_prn_signals] raises no error; for every satellite id
    in [1,32] the first bit of the generated sequence is 1 and its next nine
    bits, read as three big-endian 3-bit values, are the last three digits
    of the satellite's reference marker. *)
Theorem generate_replica_prn_signals_verifies :
  ∃ output,
    generate_replica_prn_signals = Ok output
    ∧ ∀ sid, 1 ≤ id sid ≤ 32 →
        ∃ signal marker,
          dict_get output sid = Some signal
          ∧ dict_get expected_prn_starting_markers sid = Some marker
          ∧ length (inner signal) = 1023%nat
          ∧ inner signal !! 0%nat = Some 1
          ∧ octal_groups (take 9 (drop 1 (inner signal)))
            = last_three_digits marker.
Proof.
  destruct generate_replica_prn_signals_ok as (output & Hok & Hgen & _).
  exists output. split; [done|]. intros sid Hid.
  destruct (output_entry output sid Hgen Hid)
    as (cfg & signal & marker & Hcfg & Hget & Hmarker & Hprn & Htake
        & _ & Hfirst & Hgroups).
  exists signal, marker. do 2 (split; [done|]).
  destruct (table_entry sid Hid) as (cfg' & Hcfg' & Htwo).
  assert (cfg' = cfg) as -> by congruence.
  destruct (two_taps_usable _ Htwo) as [Hrange Hne].
  destruct (generated_total _ Hrange Hne) as (prn & Hprn' & Hlen & _).
  assert (prn = inner signal) as -> by congruence.
  split; [done|]. rewrite <- Htake in Hfirst, Hgroups. split.
  - by rewrite lookup_take_lt in Hfirst by lia.
  - rewrite <- Hgroups. f_equal. symmetry.
    rewrite skipn_firstn_comm, take_take. done.
Qed.

Lemma generate_replica_prn_signals_verifies_witness :
  ∃ output signal,
    generate_replica_prn_signals = Ok output
    ∧ dict_get output (sat 1) = Some signal
    ∧ inner signal !! 0%nat = Some 1
    ∧ octal_groups (take 9 (drop 1 (inner signal))) = [4; 4; 0].
Proof.
  destruct generate_replica_prn_signals_verifies as (output & Hok & Hall).
  destruct (Hall (sat 1)) as (signal & marker & Hget & Hmarker & _ & Hfirst & Hgroups);
    [cbn; lia|].
  exists output, signal. do 3 (split; [assumption|]).
  rewrite Hgroups. revert Hmarker. vm_compute. by intros [= <-].
Defined.

Lemma dict_get_elem {V} (d : dict V) (k : GpsSatelliteId) (v : V) :
  dict_get d k = Some v → (k, v) ∈ d.
Proof.
  induction d as [|[k' v'] d IH]; [done|]. cbn [dict_get].
  destruct (decide (k' = k)) as [->|_].
  - intros [= ->]. apply list_elem_of_here.
  - intros Hget. apply list_elem_of_further, IH, Hget.
Qed.

Lemma ten_chips_of (taps chips : list Z) :
  taps_in_range 10 taps → taps ≠ [] →
  first_chips 10 taps = chips →
  ∃ prn, _generate_ca_code_with_taps taps = Ok prn ∧ take 10 prn = chips.
Proof.
  intros Hrange Hne <-.
  destruct (generated_total taps Hrange Hne) as (prn & Hprn & _).
  exists prn. split; [assumption|].
  apply generated_first_chips; [assumption|assumption|lia|assumption].
Qed.

Lemma groups_of_prefix (prn : list Z) :
  octal_groups (take 9 (drop 1 prn)) = octal_groups (take 9 (drop 1 (take 10 prn))).
Proof. by rewrite skipn_firstn_comm, take_take. Qed.

(** C4: the code generated with taps [2,6] (satellite 1) starts with a 1
    followed by the octal digits 4, 4, 0 of marker 1440, and the code
    generated with taps [1,3] (satellite 23) starts with a 1 followed by the
    octal digits 0, 6, 3 of marker 1063; both pass the checks of the
    verification pass. *)
Theorem reference_scenarios :
  (∃ prn, _generate_ca_code_with_taps [2; 6] = Ok prn
          ∧ prn !! 0%nat = Some 1
          ∧ octal_groups (take 9 (drop 1 prn)) = [4; 4; 0]
          ∧ verify_prn (sat 1) prn 1440 = Ok ())
  ∧ (∃ prn, _generate_ca_code_with_taps [1; 3] = Ok prn
            ∧ prn !! 0%nat = Some 1
            ∧ octal_groups (take 9 (drop 1 prn)) = [0; 6; 3]
            ∧ verify_prn (sat 23) prn 1063 = Ok ()).
Proof.
  split.
  - destruct (ten_chips_of [2; 6] [1; 1; 0; 0; 1; 0; 0; 0; 0; 0])
      as (prn & Hprn & Htake);
      [repeat constructor; lia | discriminate | vm_compute; reflexivity |].
    exists prn. split; [assumption|].
    rewrite groups_of_prefix, <- (verify_prn_take (sat 1) 1440 10 prn)
      by (vm_compute; lia).
    rewrite <- (lookup_take_lt prn 10 0) by lia. rewrite Htake.
    repeat split; vm_compute; reflexivity.
  - destruct (ten_chips_of [1; 3] [1; 0; 0; 0; 1; 1; 0; 0; 1; 1])
      as (prn & Hprn & Htake);
      [repeat constructor; lia | discriminate | vm_compute; reflexivity |].
    exists prn. split; [assumption|].
    rewrite groups_of_prefix, <- (verify_prn_take (sat 23) 1063 10 prn)
      by (vm_compute; lia).
    rewrite <- (lookup_take_lt prn 10 0) by lia. rewrite Htake.
    repeat split; vm_compute; reflexivity.
Qed.

(** C1 (as the code behaves): the signal exposed for a satellite is the chip
    sequence itself, with values 0 and 1; for satellite 1 its first value
    is the chip 1 unchanged and its third value is 0. *)
Theorem replica_signal_is_chip_sequence :
  ∃ output signal,
    generate_replica_prn_signals = Ok output
    ∧ Forall2 generated_from satellite_id_to_g2_sequence_tap_configuration output
    ∧ dict_get output (sat 1) = Some signal
    ∧ _generate_ca_code_with_taps [2; 6] = Ok (inner signal)
    ∧ inner signal !! 0%nat = Some 1
    ∧ inner signal !! 2%nat = Some 0.
Proof.
  destruct generate_replica_prn_signals_ok as (output & Hok & Hgen & _).
  destruct (generated_lookup _ _ (sat 1) {| taps := [2; 6] |} Hgen)
    as (signal & Hget & Hprn); [vm_compute; reflexivity|].
  cbn [taps] in Hprn.
  exists output, signal. do 4 (split; [assumption|]).
  destruct (ten_chips_of [2; 6] [1; 1; 0; 0; 1; 0; 0; 0; 0; 0])
    as (prn & Hprn' & Htake);
    [repeat constructor; lia | discriminate | vm_compute; reflexivity |].
  assert (prn = inner signal) as -> by congruence.
  rewrite <- (lookup_take_lt (inner signal) 10 0),
          <- (lookup_take_lt (inner signal) 10 2) by lia.
  rewrite Htake. split; reflexivity.
Qed.

(** ** Atomicity *)

Lemma every_satellite_has_marker (sid : GpsSatelliteId) :
  1 ≤ id sid ≤ 32 →
  ∃ marker, dict_get expected_prn_starting_markers sid = Some marker.
Proof.
  intros Hid.
  assert (forallb (λ sid, bool_decide
                            (is_Some (dict_get expected_prn_starting_markers sid)))
            satellite_ids = true) as Hall by (vm_compute; reflexivity).
  pose proof (for_all_satellites _ sid Hall Hid) as Hsome.
  apply bool_decide_eq_true in Hsome. exact Hsome.
Qed.

(** C7: whatever the two tables hold, [generate_replica_prn_signals] either
    raises, and then returns no mapping, or returns a mapping with one
    generated signal for every item of the tap table in which every item of
    the marker table has been verified; with the tables of the source, a
    returned mapping holds a verified signal for each of the 32 satellite
    ids. *)
Theorem generation_is_atomic :
  (∀ tap_table markers,
     (∃ e, generate_replica_prn_signals_from tap_table markers = Raise e)
     ∨ (∃ output,
          generate_replica_prn_signals_from tap_table markers = Ok output
          ∧ Forall2 generated_from tap_table output
          ∧ Forall (verified_in output) markers))
  ∧ ((∃ e, generate_replica_prn_signals = Raise e)
     ∨ (∃ output,
          generate_replica_prn_signals = Ok output
          ∧ ∀ sid, 1 ≤ id sid ≤ 32 →
              ∃ signal marker,
                dict_get output sid = Some signal
                ∧ dict_get expected_prn_starting_markers sid = Some marker
                ∧ verify_prn sid (inner signal) marker = Ok ())).
Proof.
  assert (∀ tap_table markers,
     (∃ e, generate_replica_prn_signals_from tap_table markers = Raise e)
     ∨ (∃ output,
          generate_replica_prn_signals_from tap_table markers = Ok output
          ∧ Forall2 generated_from tap_table output
          ∧ Forall (verified_in output) markers)) as Hatomic.
  { intros tap_table markers.
    destruct (generate_replica_prn_signals_from tap_table markers)
      as [output|e] eqn:Hresult; [right|left; by exists e].
    apply generate_replica_prn_signals_from_spec in Hresult as [Hout Hverify].
    exists output. split; [reflexivity|]. split.
    - apply generate_output_spec, Hout.
    - apply verify_all_spec, Hverify. }
  split; [exact Hatomic|].
  unfold generate_replica_prn_signals.
  destruct (Hatomic satellite_id_to_g2_sequence_tap_configuration
              expected_prn_starting_markers)
    as [Hraise|(output & Hok & _ & Hverified)]; [left; exact Hraise|right].
  exists output. split; [exact Hok|]. intros sid Hid.
  destruct (every_satellite_has_marker sid Hid) as [marker Hmarker].
  rewrite Forall_forall in Hverified.
  destruct (Hverified (sid, marker)) as (signal & Hget & Hverify).
  { apply dict_get_elem, Hmarker. }
  exists signal, marker. split; [exact Hget|]. split; [exact Hmarker|exact Hverify].
Qed.

Lemma generation_is_atomic_witness :
  ∃ output signal,
    generate_replica_prn_signals = Ok output
    ∧ dict_get output (sat 32) = Some signal
    ∧ verify_prn (sat 32) (inner signal) 1712 = Ok ().
Proof.
  destruct (proj2 generation_is_atomic) as [[e He]|(output & Hok & Hall)].
  - destruct generate_replica_prn_signals_ok as (output & Hok & _).
    rewrite Hok in He. discriminate He.
  - destruct (Hall (sat 32)) as (signal & marker & Hget & Hmarker & Hverify);
      [cbn; lia|].
    exists output, signal. split; [exact Hok|]. split; [exact Hget|].
    revert Hmarker Hverify. vm_compute (dict_get _ _). intros [= <-] Hverify.
    exact Hverify.
Defined.

(** ** What the verification pass does not see *)

Lemma marker_of_table_has_four_digits (sid : GpsSatelliteId) (marker : Z) :
  (sid, marker) ∈ expected_prn_starting_markers →
  marker_entry_verifies (sid, marker) = true.
Proof.
  intros Hin. pose proof markers_verify as Hall.
  rewrite forallb_forall in Hall. apply Hall, list_elem_of_In, Hin.
Qed.

(** C10: for every item of the marker table the outcome of the checks made
    on a signal depends on its first ten values only, so that the chips at
    indices 10 to 1022 are compared with nothing: a sequence that agrees
    with the generated code of the satellite on the first ten chips passes,
    whatever it holds behind them. *)
Theorem verification_reads_ten_chips (sid : GpsSatelliteId) (marker : Z) :
  (sid, marker) ∈ expected_prn_starting_markers →
  (∀ prn prn',
     take 10 prn = take 10 prn' →
     verify_prn sid prn marker = verify_prn sid prn' marker)
  ∧ (∀ cfg prn prn',
       dict_get satellite_id_to_g2_sequence_tap_configuration sid = Some cfg →
       _generate_ca_code_with_taps (taps cfg) = Ok prn →
       take 10 prn' = take 10 prn →
       verify_prn sid prn' marker = Ok ()).
Proof.
  intros Hin.
  pose proof (marker_of_table_has_four_digits sid marker Hin) as Hcheck.
  unfold marker_entry_verifies in Hcheck. cbn [fst snd] in Hcheck.
  destruct (dict_get _ sid) as [cfg|] eqn:Hcfg; [|discriminate Hcheck].
  rewrite !andb_true_iff, !bool_decide_eq_true in Hcheck.
  destruct Hcheck as [[Htwo Hlen] Hverify]. apply two_taps_b_spec in Htwo.
  destruct (two_taps_usable _ Htwo) as [Hrange Hne].
  assert (∀ prn, verify_prn sid (take 10 prn) marker = verify_prn sid prn marker)
    as Htake.
  { intros prn. apply verify_prn_take; rewrite ?Hlen; cbn; lia. }
  split.
  - intros prn prn' Heq. rewrite <- (Htake prn), <- (Htake prn'), Heq.
    reflexivity.
  - intros cfg' prn prn' [= <-] Hprn Heq.
    rewrite <- (Htake prn'), Heq.
    rewrite (generated_first_chips _ 10 _ Hrange Hne ltac:(lia) Hprn).
    exact Hverify.
Qed.

Lemma verification_reads_ten_chips_witness :
  verify_prn (sat 1) ([1; 1; 0; 0; 1; 0; 0; 0; 0; 0] ++ replicate 1013 0) 1440
  = Ok ()
  ∧ _generate_ca_code_with_taps [2; 6]
    ≠ Ok ([1; 1; 0; 0; 1; 0; 0; 0; 0; 0] ++ replicate 1013 0).
Proof.
  split.
  - destruct (ten_chips_of [2; 6] [1; 1; 0; 0; 1; 0; 0; 0; 0; 0])
      as (prn & Hprn & Htake);
      [repeat constructor; lia | discriminate | vm_compute; reflexivity |].
    refine (proj2 (verification_reads_ten_chips (sat 1) 1440 _)
              {| taps := [2; 6] |} prn _ _ Hprn _).
    + apply dict_get_elem. vm_compute. reflexivity.
    + vm_compute. reflexivity.
    + rewrite Htake. reflexivity.
  - apply (bool_decide_eq_false_1 _). vm_compute. reflexivity.
Defined.

(** ** The two constructions *)

Lemma constructions_agree_all : forallb constructions_agree satellite_ids = true.
Proof. vm_compute. reflexivity. Qed.

Lemma max_len_seq_g1 : Scipy.max_len_seq 10 [10 - 3] = Ok g1_sequence.
Proof. vm_compute. reflexivity. Qed.

Lemma max_len_seq_g2 :
  Scipy.max_len_seq 10 [10 - 9; 10 - 8; 10 - 6; 10 - 3; 10 - 2] = Ok g2_sequence.
Proof. vm_compute. reflexivity. Qed.

Lemma rolled_by_unfold (delay_ms : Z) :
  _generate_ca_code_rolled_by delay_ms
  = Ok (Np.bitwise_xor g1_sequence (Np.roll g2_sequence delay_ms)).
Proof.
  unfold _generate_ca_code_rolled_by.
  rewrite max_len_seq_g1. cbn [mbind result_bind].
  rewrite max_len_seq_g2. reflexivity.
Qed.

Lemma rolled_windows_distinct : NoDup (rolled_windows g1_sequence g2_sequence).
Proof. apply (bool_decide_eq_true_1 _). vm_compute. reflexivity. Qed.

(** Two rotations under one period give different codes. *)
Lemma rolled_by_injective (d d' : Z) :
  0 ≤ d < 1023 → 0 ≤ d' < 1023 →
  _generate_ca_code_rolled_by d = _generate_ca_code_rolled_by d' →
  d = d'.
Proof.
  intros Hd Hd'. rewrite !rolled_by_unfold. intros Heq.
  apply (f_equal sequence_of) in Heq. cbn [sequence_of] in Heq.
  assert (∀ k, 0 ≤ k < 1023 →
            rolled_windows g1_sequence g2_sequence !! Z.to_nat k
            = Some (take 10 (Np.bitwise_xor g1_sequence (Np.roll g2_sequence k))))
    as Hwindow.
  { intros k Hk. unfold rolled_windows. rewrite list_lookup_fmap.
    rewrite lookup_seq_lt by lia. cbn [fmap option_fmap option_map Nat.add].
    by rewrite Z2Nat.id by lia. }
  pose proof (Hwindow d Hd) as H1. pose proof (Hwindow d' Hd') as H2.
  rewrite Heq in H1.
  pose proof (NoDup_lookup _ _ _ _ rolled_windows_distinct H1 H2). lia.
Qed.

(** C5: for every satellite id in [1,32] the rotation construction, called
    with the chip delay of the satellite, gives the same sequence as the
    shift-register construction called with its tap configuration. *)
Theorem constructions_equivalent (sid : GpsSatelliteId) :
  1 ≤ id sid ≤ 32 →
  ∃ cfg delay prn,
    dict_get satellite_id_to_g2_sequence_tap_configuration sid = Some cfg
    ∧ dict_get satellite_id_to_chip_delay sid = Some delay
    ∧ _generate_ca_code_rolled_by (delay_ms delay) = Ok prn
    ∧ _generate_ca_code_with_taps (taps cfg) = Ok prn.
Proof.
  intros Hid.
  pose proof (for_all_satellites _ sid constructions_agree_all Hid) as Hcheck.
  unfold constructions_agree in Hcheck.
  destruct (dict_get satellite_id_to_g2_sequence_tap_configuration sid)
    as [cfg|]; [|discriminate Hcheck].
  destruct (dict_get satellite_id_to_chip_delay sid)
    as [delay|]; [|discriminate Hcheck].
  apply bool_decide_eq_true in Hcheck.
  exists cfg, delay. rewrite <- Hcheck, rolled_by_unfold.
  eexists. repeat split; reflexivity.
Qed.

Lemma constructions_equivalent_witness :
  ∃ prn, _generate_ca_code_rolled_by 5 = Ok prn
         ∧ _generate_ca_code_with_taps [2; 6] = Ok prn.
Proof.
  destruct (constructions_equivalent (sat 1))
    as (cfg & delay & prn & Hcfg & Hdelay & Hrolled & Htaps); [cbn; lia|].
  exists prn. revert Hcfg Hdelay Hrolled Htaps.
  vm_compute (dict_get _ _). intros [= <-] [= <-] Hrolled Htaps.
  split; [exact Hrolled|exact Htaps].
Defined.

(** The delay of a satellite is the only rotation under one period for
    which the two constructions agree. *)
Lemma chip_delay_determined (sid : GpsSatelliteId)
    (cfg : G2SequenceTapsConfiguration) (d : Z) :
  1 ≤ id sid ≤ 32 → 0 ≤ d < 1023 →
  dict_get satellite_id_to_g2_sequence_tap_configuration sid = Some cfg →
  _generate_ca_code_rolled_by d = _generate_ca_code_with_taps (taps cfg) →
  dict_get satellite_id_to_chip_delay sid = Some {| delay_ms := d |}.
Proof.
  intros Hid Hd Hcfg Heq.
  pose proof (for_all_satellites _ sid constructions_agree_all Hid) as Hcheck.
  assert (forallb (λ sid, match dict_get satellite_id_to_chip_delay sid with
                          | Some delay => bool_decide (0 ≤ delay_ms delay < 1023)
                          | None => true
                          end) satellite_ids = true) as Hranges
    by (vm_compute; reflexivity).
  pose proof (for_all_satellites _ sid Hranges Hid) as Hrange.
  cbn beta in Hrange.
  unfold constructions_agree in Hcheck. rewrite Hcfg in Hcheck.
  destruct (dict_get satellite_id_to_chip_delay sid)
    as [[delay]|]; [|discriminate Hcheck].
  apply bool_decide_eq_true in Hcheck. apply bool_decide_eq_true in Hrange.
  cbn [delay_ms] in Hcheck, Hrange.
  rewrite <- Heq in Hcheck.
  rewrite (rolled_by_injective _ _ Hrange Hd Hcheck). reflexivity.
Qed.

(** ** The mismatch error *)

Lemma int_digit_value (c : ascii) :
  is_digit c → int_digit c = Ok (digit_value c).
Proof.
  unfold is_digit, int_digit, digit_value. intros Hc.
  destruct (Z.leb_spec 0 (Z.of_N (N_of_ascii c) - 48)); [|lia].
  destruct (Z.leb_spec (Z.of_N (N_of_ascii c) - 48) 9); [|lia].
  reflexivity.
Qed.

Lemma uint_digits (d : Decimal.uint) :
  Forall is_digit (list_ascii_of_string (NilEmpty.string_of_uint d)).
Proof.
  induction d; cbn [NilEmpty.string_of_uint list_ascii_of_string];
    constructor; try assumption; unfold is_digit; vm_compute; split; discriminate.
Qed.

Lemma str_tail_digits (marker : Z) (c : ascii) (rest : string) :
  Py.str marker = String c rest → c ≠ "-"%char →
  Forall is_digit (list_ascii_of_string rest).
Proof.
  unfold Py.str. destruct (Z.to_int marker) as [d|d]; cbn [NilZero.string_of_int].
  - intros Hstr _.
    assert (Forall is_digit (list_ascii_of_string (NilZero.string_of_uint d)))
      as Hall.
    { destruct d; try apply uint_digits.
      constructor; [|constructor]. unfold is_digit. vm_compute. split; discriminate. }
    rewrite Hstr in Hall. by inversion Hall.
  - intros [= <- _] Hne. done.
Qed.

Lemma three_bits_value (b2 b1 b0 : Z) :
  is_bit b2 → is_bit b1 → is_bit b0 →
  int_base2 (join_bits [b2; b1; b0]) = Ok (4 * b2 + 2 * b1 + b0).
Proof. intros [-> | ->] [-> | ->] [-> | ->]; reflexivity. Qed.

Lemma verify_digits_first_difference (sid : GpsSatelliteId) (prn : list Z)
    (digits : string) (digit_idx d : nat) (actual : Z) (c : ascii) :
  Forall is_bit prn →
  Forall is_digit (list_ascii_of_string digits) →
  first_difference (octal_groups (drop (digit_idx * 3) prn))
                   (list_ascii_of_string digits) digit_idx
  = Some (d, actual, c) →
  verify_digits sid prn digit_idx digits
  = Raise (ValueError (mismatch_message sid actual c)).
Proof.
  intros Hbits. revert digit_idx.
  induction digits as [|c0 digits IH]; intros digit_idx Hdigits.
  - cbn [list_ascii_of_string]. by destruct (octal_groups _).
  - cbn [list_ascii_of_string] in *. inversion Hdigits as [|? ? Hc0 Hrest]; subst.
    pose proof (Forall_drop _ (digit_idx * 3) _ Hbits) as Hdrop.
    assert (drop (S digit_idx * 3) prn = drop 3 (drop (digit_idx * 3) prn))
      as Hnext.
    { rewrite drop_drop. f_equal. lia. }
    cbn [verify_digits].
    destruct (drop (digit_idx * 3) prn) as [|b2 [|b1 [|b0 rest]]] eqn:Hgroup;
      try done.
    cbn [octal_groups first_difference].
    inversion Hdrop as [|? ? Hb2 Hdrop1]; subst.
    inversion Hdrop1 as [|? ? Hb1 Hdrop2]; subst.
    inversion Hdrop2 as [|? ? Hb0 _]; subst.
    change (take 3 (b2 :: b1 :: b0 :: rest)) with [b2; b1; b0].
    rewrite (three_bits_value _ _ _ Hb2 Hb1 Hb0). cbn [mbind result_bind].
    rewrite (int_digit_value _ Hc0). cbn [mbind result_bind].
    destruct (decide (4 * b2 + 2 * b1 + b0 = digit_value c0)) as [Heq|Hne].
    + destruct (decide (4 * b2 + 2 * b1 + b0 ≠ digit_value c0)); [done|].
      intros Hdiff. apply IH; [assumption|].
      rewrite Hnext. exact Hdiff.
    + destruct (decide (4 * b2 + 2 * b1 + b0 ≠ digit_value c0)); [|done].
      by intros [= _ <- <-].
Qed.

(** C8 (as the code behaves): when a sequence of bits that starts with a 1
    first disagrees with a reference marker that starts with the digit 1 at
    some digit, the checks raise a [ValueError] whose message holds the
    satellite id, the value of the group of three bits and the expected
    digit; the index of the digit is not part of it. *)
Theorem mismatch_error (sid : GpsSatelliteId) (prn : list Z) (marker : Z)
    (d : nat) (actual : Z) (c : ascii) :
  String.get 0 (Py.str marker) = Some "1"%char →
  prn !! 0%nat = Some 1 →
  Forall is_bit prn →
  first_mismatch prn marker = Some (d, actual, c) →
  verify_prn sid prn marker
  = Raise (ValueError ("SV " ++ Py.str (id sid) ++ ": PRN digit "
                         ++ Py.str actual ++ " didn't match expected digit "
                         ++ String c EmptyString)).
Proof.
  intros Hlead Hfirst Hbits Hmismatch.
  unfold first_mismatch, expected_digits in Hmismatch. unfold verify_prn.
  destruct (Py.str marker) as [|c0 rest] eqn:Hstr; [done|].
  cbn [String.get] in Hlead. injection Hlead as ->.
  cbn [negb Ascii.eqb Bool.eqb].
  change (Py.getitem prn 0) with (Py.getitem prn (Z.of_nat 0)).
  rewrite (getitem_nat _ _ _ Hfirst). cbn [mbind result_bind].
  destruct (decide (1 ≠ 1)); [done|].
  apply (verify_digits_first_difference sid (drop 1 prn) rest 0 d actual c).
  - by apply Forall_drop.
  - by apply (str_tail_digits marker "1" rest).
  - exact Hmismatch.
Qed.

Lemma mismatch_error_witness :
  verify_prn (sat 4) [1; 1; 1; 1; 1; 1; 0; 1; 0; 0] 1744
  = Raise (ValueError "SV 4: PRN digit 6 didn't match expected digit 4").
Proof.
  apply (mismatch_error (sat 4) [1; 1; 1; 1; 1; 1; 0; 1; 0; 0] 1744 1 6 "4").
  - reflexivity.
  - reflexivity.
  - repeat constructor; (by left) || (by right).
  - reflexivity.
Defined.

(** C8 as stated fails: with the entry of satellite 4 changed to taps [6,7]
    the code disagrees with marker 1744 at digit 1, with taps [5,8] at
    digit 2, and the error raised is the same in both cases, so that no
    digit index can be read off it. *)
Lemma mismatch_error_lacks_digit_index :
  (∃ prn1 prn2 e,
     _generate_ca_code_with_taps [6; 7] = Ok prn1
     ∧ _generate_ca_code_with_taps [5; 8] = Ok prn2
     ∧ first_mismatch prn1 1744 = Some (1%nat, 6, "4"%char)
     ∧ first_mismatch prn2 1744 = Some (2%nat, 6, "4"%char)
     ∧ verify_prn (sat 4) prn1 1744 = Raise e
     ∧ verify_prn (sat 4) prn2 1744 = Raise e
     ∧ generate_replica_prn_signals_from
         [(sat 4, {| taps := [6; 7] |})] [(sat 4, 1744)] = Raise e
     ∧ generate_replica_prn_signals_from
         [(sat 4, {| taps := [5; 8] |})] [(sat 4, 1744)] = Raise e
     ∧ e = ValueError "SV 4: PRN digit 6 didn't match expected digit 4")
  ∧ ¬ (∃ digit_index_of : exn → nat,
         ∀ sid prn marker d actual c e,
           first_mismatch prn marker = Some (d, actual, c) →
           verify_prn sid prn marker = Raise e →
           digit_index_of e = d).
Proof.
  assert (∃ prn1 prn2 e,
     _generate_ca_code_with_taps [6; 7] = Ok prn1
     ∧ _generate_ca_code_with_taps [5; 8] = Ok prn2
     ∧ first_mismatch prn1 1744 = Some (1%nat, 6, "4"%char)
     ∧ first_mismatch prn2 1744 = Some (2%nat, 6, "4"%char)
     ∧ verify_prn (sat 4) prn1 1744 = Raise e
     ∧ verify_prn (sat 4) prn2 1744 = Raise e
     ∧ generate_replica_prn_signals_from
         [(sat 4, {| taps := [6; 7] |})] [(sat 4, 1744)] = Raise e
     ∧ generate_replica_prn_signals_from
         [(sat 4, {| taps := [5; 8] |})] [(sat 4, 1744)] = Raise e
     ∧ e = ValueError "SV 4: PRN digit 6 didn't match expected digit 4")
    as Hruns.
  { exists (sequence_of (_generate_ca_code_with_taps [6; 7])),
           (sequence_of (_generate_ca_code_with_taps [5; 8])),
           (ValueError "SV 4: PRN digit 6 didn't match expected digit 4").
    do 8 (split; [vm_compute; reflexivity|]). reflexivity. }
  split; [exact Hruns|].
  destruct Hruns as (prn1 & prn2 & e & _ & _ & Hm1 & Hm2 & Hv1 & Hv2 & _).
  intros [digit_index_of Hindex].
  pose proof (Hindex _ _ _ _ _ _ _ Hm1 Hv1) as H1.
  pose proof (Hindex _ _ _ _ _ _ _ Hm2 Hv2) as H2.
  congruence.
Qed.

(** * Further properties of the code *)

(** ** Positions outside [1, n] *)

Lemma getitem_raises_IndexError {A} (l : list A) (i : Z) (e : exn) :
  Py.getitem l i = Raise e → e = IndexError.
Proof.
  unfold Py.getitem. destruct (_ <? 0); [by intros [= <-]|].
  destruct (l !! _); [done|by intros [= <-]].
Qed.

Lemma getitem_unreadable (register : list Z) (position : Z) :
  ¬ tap_readable (length register) position →
  Py.getitem register (position - 1) = Raise IndexError.
Proof.
  unfold tap_readable, Py.getitem, Py.resolve. intros Hp.
  destruct (Z.ltb_spec (position - 1) 0) as [Hneg|Hpos].
  - destruct (Z.ltb_spec (position - 1 + Z.of_nat (length register)) 0); [done|lia].
  - destruct (Z.ltb_spec (position - 1) 0); [lia|].
    rewrite lookup_ge_None_2; [done|lia].
Qed.

Lemma getitem_wrap (register : list Z) (position : Z) :
  tap_readable (length register) position →
  Py.getitem register (position - 1)
  = Py.getitem register (wrap_position (length register) position - 1).
Proof.
  unfold tap_readable, wrap_position, Py.getitem, Py.resolve. intros Hp.
  destruct (Z.ltb_spec position 1) as [Hlow|Hhigh]; [|done].
  replace (position + Z.of_nat (length register) - 1)
    with (position - 1 + Z.of_nat (length register)) by lia.
  assert ((position - 1 <? 0) = true) as Hneg by (apply Z.ltb_lt; lia).
  assert ((position - 1 + Z.of_nat (length register) <? 0) = false) as Hpos
    by (apply Z.ltb_ge; lia).
  cbv zeta. rewrite Hneg, !Hpos. reflexivity.
Qed.

Lemma wrap_position_in_range (n : nat) (position : Z) :
  tap_readable n position → 1 ≤ wrap_position n position ≤ Z.of_nat n.
Proof.
  unfold tap_readable, wrap_position.
  destruct (Z.ltb_spec position 1); lia.
Qed.

Lemma read_unreadable (register : list Z) (positions : list Z) :
  Exists (λ p, ¬ tap_readable (length register) p) positions →
  mapM (λ i, Py.getitem register (i - 1)) positions = Raise IndexError.
Proof.
  induction positions as [|p positions IH]; intros Hex; [by inversion Hex|].
  cbn [mapM].
  destruct (Py.getitem register (p - 1)) as [x|e] eqn:Hp; cbn [mbind result_bind].
  - fold (mapM (λ i, Py.getitem register (i - 1)) positions).
    rewrite IH; [done|].
    inversion Hex as [? ? Hbad|? ? Hrest]; subst; [|done].
    by rewrite (getitem_unreadable _ _ Hbad) in Hp.
  - by rewrite (getitem_raises_IndexError _ _ _ Hp).
Qed.

Lemma read_wrapped (register : list Z) (positions : list Z) :
  Forall (tap_readable (length register)) positions →
  mapM (λ i, Py.getitem register (i - 1)) positions
  = mapM (λ i, Py.getitem register (i - 1))
         (map (wrap_position (length register)) positions).
Proof.
  induction 1 as [|p positions Hp _ IH]; [done|].
  cbn [mapM map]. rewrite <- (getitem_wrap _ _ Hp).
  destruct (Py.getitem register (p - 1)); cbn [mbind result_bind]; [|done].
  fold (mapM (λ i, Py.getitem register (i - 1)) positions).
  fold (mapM (λ i, Py.getitem register (i - 1))
          (map (wrap_position (length register)) positions)).
  by rewrite IH.
Qed.

Lemma wrapped_in_range (n : nat) (positions : list Z) :
  Forall (tap_readable n) positions →
  taps_in_range n (map (wrap_position n) positions).
Proof.
  intros Hall. apply Forall_fmap. eapply Forall_impl; [exact Hall|].
  intros p Hp. by apply wrap_position_in_range.
Qed.

Lemma shift_reads_raises (register feedback output : list Z) :
  output = []
  ∨ Exists (λ p, ¬ tap_readable (length register) p) output
  ∨ Exists (λ p, ¬ tap_readable (length register) p) feedback →
  shift_reads register feedback output = Raise IndexError.
Proof.
  unfold shift_reads. intros [->|Hbad]; [done|].
  destruct (decide (Exists (λ p, ¬ tap_readable (length register) p) output))
    as [Hout|Hout].
  { by rewrite (read_unreadable _ _ Hout). }
  destruct Hbad as [Hbad|Hfb]; [done|].
  destruct (mapM _ output) as [outs|e] eqn:Houts; cbn [mbind result_bind].
  - destruct (if 1 <? _ then _ else _) as [o|e] eqn:Ho; cbn [mbind result_bind].
    + by rewrite (read_unreadable _ _ Hfb).
    + destruct (1 <? _); [done|].
      by rewrite (getitem_raises_IndexError _ _ _ Ho).
  - revert Houts. clear. revert e.
    induction output as [|p output IH]; intros e; [done|].
    cbn [mapM]. destruct (Py.getitem register (p - 1)) eqn:Hp;
      cbn [mbind result_bind].
    + fold (mapM (λ i, Py.getitem register (i - 1)) output).
      destruct (mapM _ output) as [|e'] eqn:Hrest; cbn [mbind result_bind];
        [done|].
      intros [= <-]. by rewrite (IH e').
    + intros [= <-]. by rewrite (getitem_raises_IndexError _ _ _ Hp).
Qed.

(** X1: [shift] raises [IndexError] and leaves the register as it was when
    the list of output taps is empty, or when an output or feedback tap
    lies outside the positions that Python's indexing accepts (below
    [1 - n] or above [n] for a register of [n] values). *)
Theorem shift_raises_IndexError (register feedback output : list Z) :
  output = []
  ∨ Exists (λ p, ¬ tap_readable (length register) p) output
  ∨ Exists (λ p, ¬ tap_readable (length register) p) feedback →
  shift register feedback output = (register, Raise IndexError).
Proof.
  intros Hbad. unfold shift. by rewrite (shift_reads_raises _ _ _ Hbad).
Qed.

Lemma shift_raises_IndexError_witness :
  shift (replicate 10 1) [3; 10] [11] = (replicate 10 1, Raise IndexError)
  ∧ shift (replicate 10 1) [3; 10] [] = (replicate 10 1, Raise IndexError)
  ∧ shift (replicate 10 1) [3; -10] [10] = (replicate 10 1, Raise IndexError).
Proof.
  split; [|split]; apply shift_raises_IndexError.
  - right. left. apply Exists_cons_hd. unfold tap_readable. cbn. lia.
  - left. reflexivity.
  - right. right. apply Exists_cons_tl, Exists_cons_hd.
    unfold tap_readable. cbn. lia.
Defined.

Lemma shift_wrapped (register feedback output : list Z) :
  Forall (tap_readable (length register)) feedback →
  Forall (tap_readable (length register)) output →
  shift register feedback output
  = shift register (map (wrap_position (length register)) feedback)
          (map (wrap_position (length register)) output).
Proof.
  intros Hfb Hout. unfold shift, shift_reads.
  by rewrite <- (read_wrapped _ _ Hfb), <- (read_wrapped _ _ Hout).
Qed.

(** X2: [shift] accepts tap positions from [1 - n] to [0] on a register of
    [n] values: such a position counts from the end of the register and
    acts as the position [n] higher.  With all taps readable and at least
    one output tap, the call returns the output value and shifts the
    register, for a register of any length. *)
Theorem shift_negative_positions (register feedback output : list Z) :
  Forall (tap_readable (length register)) feedback →
  Forall (tap_readable (length register)) output →
  output ≠ [] →
  shift register feedback output
  = (parity_at register (map (wrap_position (length register)) feedback)
       :: take (length register - 1) register,
     Ok (output_value register
           (map (wrap_position (length register)) output))).
Proof.
  intros Hfb Hout Hne. rewrite (shift_wrapped _ _ _ Hfb Hout).
  apply shift_spec.
  - by apply wrapped_in_range.
  - by apply wrapped_in_range.
  - by destruct output.
Qed.

Lemma shift_negative_positions_witness :
  shift [1; 0; 1; 1; 0; 0; 1; 0; 1; 0] [3; 0] [-9; 0]
  = shift [1; 0; 1; 1; 0; 0; 1; 0; 1; 0] [3; 10] [1; 10].
Proof.
  rewrite (shift_negative_positions [1; 0; 1; 1; 0; 0; 1; 0; 1; 0] [3; 0] [-9; 0]).
  - reflexivity.
  - repeat constructor; unfold tap_readable; cbn; lia.
  - repeat constructor; unfold tap_readable; cbn; lia.
  - discriminate.
Defined.

(** ** The tap lists that generate a code *)

Lemma shift_wrapped_output (register feedback output : list Z) :
  Forall (tap_readable (length register)) output →
  shift register feedback output
  = shift register feedback (map (wrap_position (length register)) output).
Proof.
  intros Hout. unfold shift, shift_reads.
  by rewrite <- (read_wrapped _ _ Hout).
Qed.

Lemma ca_loop_S (n : nat) (taps : list Z) (st : ca_state) :
  ca_loop (S n) taps st = ca_step taps st ≫= ca_loop n taps.
Proof. reflexivity. Qed.

Lemma ca_loop_wrapped (n : nat) (taps : list Z) (G1 G2 ca : list Z) :
  valid_register G1 → valid_register G2 →
  Forall (tap_readable 10) taps →
  ca_loop n taps (G1, G2, ca)
  = ca_loop n (map (wrap_position 10) taps) (G1, G2, ca).
Proof.
  intros H1 H2 Htaps. revert G1 G2 ca H1 H2.
  induction n as [|n IH]; intros G1 G2 ca H1 H2; [done|].
  rewrite !ca_loop_S.
  assert (ca_step taps (G1, G2, ca)
          = ca_step (map (wrap_position 10) taps) (G1, G2, ca)) as Hstep.
  { unfold ca_step. destruct H2 as [Hlen _].
    rewrite <- Hlen in Htaps |- *. by rewrite <- shift_wrapped_output. }
  rewrite <- Hstep.
  destruct (ca_step taps (G1, G2, ca)) as [[[G1' G2'] ca']|e] eqn:Hres;
    cbn [mbind result_bind]; [|done].
  destruct (ca_step_keeps_valid _ _ _ _ _ H1 H2 Hres) as [H1' H2'].
  by apply IH.
Qed.

Lemma generation_raises (taps : list Z) :
  taps = [] ∨ Exists (λ p, ¬ tap_readable 10 p) taps →
  _generate_ca_code_with_taps taps = Raise IndexError.
Proof.
  intros Hbad. unfold _generate_ca_code_with_taps.
  change 1023%nat with (S 1022). rewrite ca_loop_S.
  assert (ca_step taps ca_init = Raise IndexError) as ->; [|done].
  unfold ca_step, ca_init.
  rewrite shift_spec; [| |by repeat constructor|done];
    [|rewrite length_replicate; apply g1_taps_in_range].
  unfold shift at 1. rewrite shift_reads_raises; [done|].
  rewrite length_replicate. destruct Hbad as [->|Hbad]; [by left|by right; left].
Qed.

(** X3: [_generate_ca_code_with_taps] raises [IndexError] when the tap list
    is empty or holds a position below -9 or above 10, and only then: for a
    non-empty list of positions from -9 to 10 it returns 1023 binary chips,
    the same as for the list in which each position below 1 is replaced by
    the position 10 higher. *)
Theorem generation_domain (taps : list Z) :
  (taps = [] ∨ Exists (λ p, ¬ tap_readable 10 p) taps →
   _generate_ca_code_with_taps taps = Raise IndexError)
  ∧ (taps ≠ [] → Forall (tap_readable 10) taps →
     ∃ prn,
       _generate_ca_code_with_taps taps = Ok prn
       ∧ _generate_ca_code_with_taps (map (wrap_position 10) taps) = Ok prn
       ∧ length prn = 1023%nat ∧ Forall is_bit prn).
Proof.
  split; [apply generation_raises|].
  intros Hne Htaps.
  destruct (generated_total (map (wrap_position 10) taps))
    as (prn & Hprn & Hlen & Hbits).
  { by apply wrapped_in_range. }
  { by destruct taps. }
  exists prn. split; [|done].
  rewrite <- Hprn. unfold _generate_ca_code_with_taps, ca_init.
  by rewrite (ca_loop_wrapped _ _ _ _ _ ones_valid ones_valid Htaps).
Qed.

Lemma generation_domain_witness :
  _generate_ca_code_with_taps [2; 11] = Raise IndexError
  ∧ ∃ prn, _generate_ca_code_with_taps [-8; 6] = Ok prn
           ∧ _generate_ca_code_with_taps [2; 6] = Ok prn.
Proof.
  split.
  - apply (proj1 (generation_domain [2; 11])). right.
    apply Exists_cons_tl, Exists_cons_hd. unfold tap_readable. cbn. lia.
  - destruct (proj2 (generation_domain [-8; 6])) as (prn & H1 & H2 & _).
    + discriminate.
    + repeat constructor; unfold tap_readable; cbn; lia.
    + exists prn. split; [exact H1|exact H2].
Defined.

(** ** The first chip and the number of output taps *)

Lemma sum_of_ones (l : list Z) (acc : Z) :
  Forall (λ x, x = 1) l → fold_left Z.add l acc = acc + Z.of_nat (length l).
Proof.
  intros Hall. revert acc. induction Hall as [|x l -> _ IH]; intros acc.
  - cbn. lia.
  - cbn [fold_left length]. rewrite IH. lia.
Qed.

Lemma parity_at_ones (taps : list Z) :
  taps_in_range 10 taps →
  parity_at (replicate 10 1) taps = Z.of_nat (length taps) mod 2.
Proof.
  intros Htaps. unfold parity_at, Py.sum. rewrite sum_of_ones.
  - by rewrite length_map.
  - apply Forall_fmap. eapply Forall_impl; [exact Htaps|].
    intros p Hp. by apply at_position_ones.
Qed.

Lemma first_chip_of (taps : list Z) :
  taps ≠ [] → taps_in_range 10 taps →
  ∃ G1 G2,
    ca_loop 1 taps ca_init
    = Ok (G1, G2, [(1 + Z.of_nat (length taps)) mod 2]).
Proof.
  intros Hne Htaps. cbn [ca_loop]. unfold ca_init.
  rewrite ca_step_spec by (done || apply ones_valid).
  cbn [mbind result_bind]. eexists _, _. do 3 f_equal.
  change (output_value (replicate 10 1) [10]) with 1.
  destruct taps as [|p [|q taps]]; [done| |].
  - cbn [output_value length]. inversion Htaps; subst.
    by rewrite at_position_ones.
  - change (output_value (replicate 10 1) (p :: q :: taps))
      with (parity_at (replicate 10 1) (p :: q :: taps)).
    rewrite parity_at_ones by done. by rewrite Zplus_mod_idemp_r.
Qed.

(** X4: for a non-empty list of output taps in [1,10] the first chip of the
    generated code is 1 when the number of taps is even and 0 when it is
    odd; a code generated with an odd number of taps therefore fails the
    checks of the verification pass with "Generated PRNs always need to
    start with 1", whatever the marker that starts with the digit 1. *)
Theorem first_chip_parity (taps : list Z) :
  taps ≠ [] → taps_in_range 10 taps →
  ∃ prn,
    _generate_ca_code_with_taps taps = Ok prn
    ∧ prn !! 0%nat = Some ((1 + Z.of_nat (length taps)) mod 2)
    ∧ (Nat.Odd (length taps) →
       ∀ sid marker,
         String.get 0 (Py.str marker) = Some "1"%char →
         verify_prn sid prn marker
         = Raise (ValueError "Generated PRNs always need to start with 1")).
Proof.
  intros Hne Htaps.
  destruct (generated_total taps Htaps Hne) as (prn & Hprn & _).
  destruct (first_chip_of taps Hne Htaps) as (G1 & G2 & Hfirst).
  pose proof (generated_prefix taps 1 prn _ ltac:(lia) Hprn Hfirst) as Htake.
  cbn [snd] in Htake.
  assert (prn !! 0%nat = Some ((1 + Z.of_nat (length taps)) mod 2)) as Hchip.
  { destruct prn as [|chip prn]; [done|]. by injection Htake as ->. }
  exists prn. split; [assumption|]. split; [assumption|].
  intros [m Hodd] sid marker Hlead. unfold verify_prn.
  destruct (Py.str marker) as [|c rest]; [done|].
  cbn [String.get] in Hlead. injection Hlead as ->.
  cbn [negb Ascii.eqb Bool.eqb].
  change (Py.getitem prn 0) with (Py.getitem prn (Z.of_nat 0)).
  rewrite (getitem_nat _ _ _ Hchip). cbn [mbind result_bind].
  rewrite Hodd.
  replace (1 + Z.of_nat (2 * m + 1)) with ((Z.of_nat m + 1) * 2) by lia.
  rewrite Z_mod_mult. reflexivity.
Qed.

Lemma first_chip_parity_witness :
  ∃ prn,
    _generate_ca_code_with_taps [10] = Ok prn
    ∧ prn !! 0%nat = Some 0
    ∧ verify_prn (sat 1) prn 1440
      = Raise (ValueError "Generated PRNs always need to start with 1").
Proof.
  destruct (first_chip_parity [10]) as (prn & Hprn & Hchip & Hverify).
  - discriminate.
  - repeat constructor; lia.
  - exists prn. split; [exact Hprn|]. split; [exact Hchip|].
    apply Hverify; [by exists 0%nat|reflexivity].
Defined.

(** ** The period of the two registers *)

Lemma returns_at_spec (feedback start : list Z) (fuel : nat) :
  ∀ register k n,
    returns_at feedback start register k fuel = Some n →
    ∃ j, n = (k + j)%nat ∧ (1 ≤ j ≤ fuel)%nat
         ∧ Nat.iter j (lfsr_step feedback) register = start
         ∧ ∀ i, (1 ≤ i < j)%nat →
                Nat.iter i (lfsr_step feedback) register ≠ start.
Proof.
  induction fuel as [|fuel IH]; intros register k n; [done|].
  cbn [returns_at]. case_bool_decide as Hback.
  - intros [= <-]. exists 1%nat. split; [lia|]. split; [lia|].
    split; [exact Hback|]. intros i Hi. lia.
  - intros Hrest. destruct (IH _ _ _ Hrest) as (j & -> & Hj & Hiter & Hnot).
    exists (S j). split; [lia|]. split; [lia|].
    split; [by rewrite Nat.iter_succ_r|].
    intros i Hi. destruct i as [|i]; [lia|].
    rewrite Nat.iter_succ_r. destruct i as [|i]; [exact Hback|].
    apply Hnot. lia.
Qed.

Lemma ca_loop_registers (taps : list Z) (n : nat) (G1 G2 ca : list Z) :
  valid_register G1 → valid_register G2 →
  taps_in_range 10 taps → taps ≠ [] →
  ∃ ca',
    ca_loop n taps (G1, G2, ca)
    = Ok (Nat.iter n (lfsr_step [3; 10]) G1,
          Nat.iter n (lfsr_step [2; 3; 6; 8; 9; 10]) G2, ca').
Proof.
  intros H1 H2 Htaps Hne. revert G1 G2 ca H1 H2.
  induction n as [|n IH]; intros G1 G2 ca H1 H2; [by eexists|].
  rewrite ca_loop_S, ca_step_spec by done. cbn [mbind result_bind].
  destruct (ca_step_valid taps G1 G2 ca H1 H2) as [H1' H2'].
  rewrite !Nat.iter_succ_r. by apply IH.
Qed.

Lemma g1_returns :
  returns_at [3; 10] (replicate 10 1) (replicate 10 1) 0 2000 = Some 1023%nat.
Proof. vm_compute. reflexivity. Qed.

Lemma g2_returns :
  returns_at [2; 3; 6; 8; 9; 10] (replicate 10 1) (replicate 10 1) 0 2000
  = Some 1023%nat.
Proof. vm_compute. reflexivity. Qed.

(** X5: both shift registers have period [PRN_CHIP_COUNT]: in a generation
    run with usable output taps the G1 and G2 registers are back at their
    initial state of all ones after the 1023 iterations, which append
    [PRN_CHIP_COUNT] chips, and neither of them holds all ones after any
    smaller positive number of iterations. *)
Theorem registers_have_period_1023 (taps : list Z) :
  taps ≠ [] → taps_in_range 10 taps →
  (∃ ca,
     ca_loop 1023 taps ca_init = Ok (replicate 10 1, replicate 10 1, ca)
     ∧ _generate_ca_code_with_taps taps = Ok ca
     ∧ Z.of_nat (length ca) = PRN_CHIP_COUNT)
  ∧ (∀ k G1 G2 ca,
       (0 < k < 1023)%nat →
       ca_loop k taps ca_init = Ok (G1, G2, ca) →
       G1 ≠ replicate 10 1 ∧ G2 ≠ replicate 10 1).
Proof.
  intros Hne Htaps.
  destruct (returns_at_spec _ _ _ _ _ _ g1_returns)
    as (j1 & Hj1 & _ & Hback1 & Hnot1).
  destruct (returns_at_spec _ _ _ _ _ _ g2_returns)
    as (j2 & Hj2 & _ & Hback2 & Hnot2).
  cbn [Nat.add] in Hj1, Hj2. subst j1 j2.
  split.
  - destruct (ca_loop_registers taps 1023 _ _ [] ones_valid ones_valid Htaps Hne)
      as [ca Hloop].
    fold ca_init in Hloop. rewrite Hback1, Hback2 in Hloop.
    exists ca. split; [exact Hloop|].
    unfold _generate_ca_code_with_taps. rewrite Hloop. split; [reflexivity|].
    destruct (ca_loop_extends _ _ _ _ Hloop) as (chips & Hca & Hlen).
    unfold ca_init in Hca. cbn [snd app] in Hca. rewrite Hca, Hlen. reflexivity.
  - intros k G1 G2 ca Hk Hloop.
    destruct (ca_loop_registers taps k _ _ [] ones_valid ones_valid Htaps Hne)
      as [ca' Hloop'].
    fold ca_init in Hloop'. rewrite Hloop in Hloop'.
    injection Hloop' as -> -> _.
    split; [apply Hnot1|apply Hnot2]; lia.
Qed.

Lemma registers_have_period_1023_witness :
  ∃ ca,
    ca_loop 1023 [2; 6] ca_init = Ok (replicate 10 1, replicate 10 1, ca)
    ∧ _generate_ca_code_with_taps [2; 6] = Ok ca
    ∧ Z.of_nat (length ca) = PRN_CHIP_COUNT.
Proof.
  apply (proj1 (registers_have_period_1023 [2; 6] ltac:(discriminate)
                  ltac:(repeat constructor; lia))).
Defined.

(** ** A position given twice *)

Lemma for_all_positions (check : Z → bool) (a : Z) :
  forallb check tap_positions = true → 1 ≤ a ≤ 10 → check a = true.
Proof.
  intros Hall Ha. rewrite forallb_forall in Hall. apply Hall.
  apply list_elem_of_In. unfold tap_positions.
  apply list_elem_of_fmap. exists (Z.to_nat a). split; [lia|].
  apply elem_of_seq. lia.
Qed.

Lemma duplicates_give_g1 : forallb duplicate_gives_g1 tap_positions = true.
Proof. vm_compute. reflexivity. Qed.

(** X6: a tap configuration that names the same position in [1,10] twice is
    not rejected: the G2 output cancels, and the code returned is the G1
    maximal-length sequence that the rotation construction obtains from
    [max_len_seq], the same for every such position. *)
Theorem duplicate_taps_give_g1_sequence (a : Z) :
  1 ≤ a ≤ 10 →
  _generate_ca_code_with_taps [a; a] = Scipy.max_len_seq 10 [10 - 3].
Proof.
  intros Ha. rewrite max_len_seq_g1.
  pose proof (for_all_positions _ a duplicates_give_g1 Ha) as Hcheck.
  unfold duplicate_gives_g1 in Hcheck.
  apply bool_decide_eq_true in Hcheck. exact Hcheck.
Qed.

Lemma duplicate_taps_give_g1_sequence_witness :
  _generate_ca_code_with_taps [4; 4] = _generate_ca_code_with_taps [9; 9].
Proof.
  rewrite (duplicate_taps_give_g1_sequence 4), (duplicate_taps_give_g1_sequence 9);
    [reflexivity|lia|lia].
Defined.

(** ** The codes of different satellites differ *)

Lemma NoDup_map_inj_on {A B} (f : A → B) (l : list A) (x y : A) :
  NoDup (map f l) → x ∈ l → y ∈ l → f x = f y → x = y.
Proof.
  intros Hnodup Hx Hy Heq.
  apply list_elem_of_lookup in Hx as [i Hi].
  apply list_elem_of_lookup in Hy as [j Hj].
  assert (map f l !! i = Some (f x)) as Hfi
    by (by rewrite list_lookup_fmap, Hi).
  assert (map f l !! j = Some (f x)) as Hfj
    by (by rewrite list_lookup_fmap, Hj, Heq).
  pose proof (NoDup_lookup _ _ _ _ Hnodup Hfi Hfj) as ->. congruence.
Qed.

Lemma ten_chips_distinct : NoDup (map ten_chips_of_satellite satellite_ids).
Proof. apply (bool_decide_eq_true_1 _). vm_compute. reflexivity. Qed.

Lemma table_keys :
  map fst satellite_id_to_g2_sequence_tap_configuration = satellite_ids.
Proof. reflexivity. Qed.

Lemma dict_get_key {V} (d : dict V) (k : GpsSatelliteId) (v : V) :
  dict_get d k = Some v → k ∈ map fst d.
Proof.
  intros Hget. apply list_elem_of_fmap. exists (k, v).
  split; [done|]. by apply dict_get_elem.
Qed.

Lemma output_prefix (output : dict GpsReplicaPrnSignal) (sid : GpsSatelliteId)
    (signal : GpsReplicaPrnSignal) :
  Forall2 generated_from satellite_id_to_g2_sequence_tap_configuration output →
  dict_get output sid = Some signal →
  sid ∈ satellite_ids
  ∧ take 10 (inner signal) = ten_chips_of_satellite sid.
Proof.
  intros Hgen Hget.
  assert (sid ∈ satellite_ids) as Hin.
  { rewrite <- table_keys, <- (generated_keys _ _ Hgen).
    by apply (dict_get_key _ _ signal). }
  split; [exact Hin|].
  assert (1 ≤ id sid ≤ 32) as Hid.
  { unfold satellite_ids in Hin. apply list_elem_of_fmap in Hin as (n & -> & Hn).
    apply elem_of_seq in Hn. cbn. lia. }
  destruct (output_entry output sid Hgen Hid)
    as (cfg & signal' & marker & Hcfg & Hget' & _ & _ & Htake & _).
  assert (signal' = signal) as -> by congruence.
  unfold ten_chips_of_satellite. by rewrite Hcfg.
Qed.

(** X7: the mapping returned by [generate_replica_prn_signals] holds a
    different signal for each satellite: the signals of two different
    satellite ids already differ within their first ten chips. *)
Theorem replica_signals_pairwise_distinct :
  ∃ output,
    generate_replica_prn_signals = Ok output
    ∧ ∀ sid sid' signal signal',
        dict_get output sid = Some signal →
        dict_get output sid' = Some signal' →
        sid ≠ sid' →
        take 10 (inner signal) ≠ take 10 (inner signal')
        ∧ inner signal ≠ inner signal'.
Proof.
  destruct generate_replica_prn_signals_ok as (output & Hok & Hgen & _).
  exists output. split; [exact Hok|].
  intros sid sid' signal signal' Hget Hget' Hne.
  destruct (output_prefix _ _ _ Hgen Hget) as [Hin Htake].
  destruct (output_prefix _ _ _ Hgen Hget') as [Hin' Htake'].
  assert (take 10 (inner signal) ≠ take 10 (inner signal')) as Hdiff.
  { rewrite Htake, Htake'. intros Heq. apply Hne.
    exact (NoDup_map_inj_on _ _ _ _ ten_chips_distinct Hin Hin' Heq). }
  split; [exact Hdiff|]. intros Heq. apply Hdiff. by rewrite Heq.
Qed.

Lemma replica_signals_pairwise_distinct_witness :
  ∃ output signal signal',
    generate_replica_prn_signals = Ok output
    ∧ dict_get output (sat 6) = Some signal
    ∧ dict_get output (sat 8) = Some signal'
    ∧ inner signal ≠ inner signal'.
Proof.
  destruct replica_signals_pairwise_distinct as (output & Hok & Hall).
  destruct generate_replica_prn_signals_ok as (output' & Hok' & Hgen & _).
  assert (output' = output) as -> by congruence.
  destruct (generated_lookup _ _ (sat 6) {| taps := [2; 10] |} Hgen)
    as (signal & Hget & _); [reflexivity|].
  destruct (generated_lookup _ _ (sat 8) {| taps := [2; 9] |} Hgen)
    as (signal' & Hget' & _); [reflexivity|].
  exists output, signal, signal'. do 3 (split; [assumption|]).
  apply (Hall (sat 6) (sat 8)); [assumption|assumption|discriminate].
Defined.

(** ** When the checks on a signal pass *)

Lemma length_list_ascii_of_string (s : string) :
  length (list_ascii_of_string s) = String.length s.
Proof. induction s as [|c s IH]; [done|]. cbn. by rewrite IH. Qed.

Lemma verify_digits_ok_iff (sid : GpsSatelliteId) (prn : list Z)
    (digits : string) (digit_idx : nat) :
  Forall is_bit prn →
  Forall is_digit (list_ascii_of_string digits) →
  (digit_idx * 3 + 3 * String.length digits ≤ length prn)%nat →
  verify_digits sid prn digit_idx digits = Ok ()
  ↔ octal_groups (take (3 * String.length digits) (drop (digit_idx * 3) prn))
    = map digit_value (list_ascii_of_string digits).
Proof.
  intros Hbits. revert digit_idx.
  induction digits as [|c digits IH]; intros digit_idx Hdigits Hlen.
  - cbn. done.
  - cbn [list_ascii_of_string String.length map] in *.
    inversion Hdigits as [|? ? Hc Hrest]; subst.
    pose proof (Forall_drop _ (digit_idx * 3) _ Hbits) as Hdrop.
    assert (drop (S digit_idx * 3) prn = drop 3 (drop (digit_idx * 3) prn))
      as Hnext.
    { rewrite drop_drop. f_equal. lia. }
    pose proof (length_drop prn (digit_idx * 3)) as Hdl.
    cbn [verify_digits].
    replace (3 * S (String.length digits))%nat
      with (S (S (S (3 * String.length digits)))) by lia.
    destruct (drop (digit_idx * 3) prn) as [|b2 [|b1 [|b0 rest]]] eqn:Hgroup;
      cbn [length] in Hdl; try lia.
    inversion Hdrop as [|? ? Hb2 Hdrop1]; subst.
    inversion Hdrop1 as [|? ? Hb1 Hdrop2]; subst.
    inversion Hdrop2 as [|? ? Hb0 _]; subst.
    change (take 3 (b2 :: b1 :: b0 :: rest)) with [b2; b1; b0].
    rewrite (three_bits_value _ _ _ Hb2 Hb1 Hb0). cbn [mbind result_bind].
    rewrite (int_digit_value _ Hc). cbn [mbind result_bind].
    cbn [take octal_groups].
    destruct (decide (4 * b2 + 2 * b1 + b0 ≠ digit_value c)) as [Hne|Heq].
    + split; [done|]. intros [= Hhead _]. done.
    + apply dec_stable in Heq.
      rewrite (IH (S digit_idx)) by (done || lia).
      rewrite Hnext. change (drop 3 (b2 :: b1 :: b0 :: rest)) with rest.
      rewrite Heq. split; [intros Hgroups; f_equal; exact Hgroups|].
      intros Hgroups. injection Hgroups as Hgroups. exact Hgroups.
Qed.

(** X8: for a sequence of bits that is long enough for the marker and a
    marker that starts with the digit 1, the checks on the signal pass
    exactly when the first bit is 1 and the following bits, read in groups
    of three with the most significant bit first, give the remaining
    digits of the marker. *)
Theorem verify_prn_passes_iff (sid : GpsSatelliteId) (prn : list Z) (marker : Z) :
  String.get 0 (Py.str marker) = Some "1"%char →
  Forall is_bit prn →
  (1 + 3 * length (expected_digits marker) ≤ length prn)%nat →
  verify_prn sid prn marker = Ok ()
  ↔ prn !! 0%nat = Some 1
    ∧ octal_groups (take (3 * length (expected_digits marker)) (drop 1 prn))
      = map digit_value (expected_digits marker).
Proof.
  intros Hlead Hbits Hlen. unfold verify_prn, expected_digits in *.
  destruct (Py.str marker) as [|c rest] eqn:Hstr; [done|].
  cbn [String.get] in Hlead. injection Hlead as ->.
  cbn [negb Ascii.eqb Bool.eqb].
  rewrite length_list_ascii_of_string in *.
  destruct prn as [|chip prn]; [cbn in Hlen; lia|].
  change (Py.getitem (chip :: prn) 0) with (Ok chip : result Z).
  cbn [mbind result_bind lookup list_lookup drop].
  destruct (decide (chip ≠ 1)) as [Hne|Heq].
  - split; [done|]. by intros [[= ->] _].
  - apply dec_stable in Heq. subst chip.
    rewrite (verify_digits_ok_iff sid prn rest 0).
    + change (drop (0 * 3) prn) with prn.
      split; [intros Hgroups; split; [reflexivity|exact Hgroups]|].
      intros [_ Hgroups]. exact Hgroups.
    + by inversion Hbits.
    + by apply (str_tail_digits marker "1" rest).
    + cbn [length] in Hlen. lia.
Qed.

Lemma verify_prn_passes_iff_witness :
  verify_prn (sat 23) [1; 0; 0; 0; 1; 1; 0; 0; 1; 1] 1063 = Ok ().
Proof.
  apply (verify_prn_passes_iff (sat 23) [1; 0; 0; 0; 1; 1; 0; 0; 1; 1] 1063).
  - reflexivity.
  - repeat constructor; (by left) || (by right).
  - cbn. lia.
  - split; reflexivity.
Defined.

(** ** The order of the checks on a signal *)

Lemma str_nonempty (n : Z) : Py.str n ≠ EmptyString.
Proof.
  unfold Py.str. destruct n as [|p|p]; cbn; [done| |done].
  unfold NilZero.string_of_uint. by destruct (Pos.to_uint p).
Qed.

Lemma str_nonpositive (n : Z) :
  n ≤ 0 → String.get 0 (Py.str n) ≠ Some "1"%char.
Proof. destruct n as [|p|p]; [done|lia|done]. Qed.

(** X9: the checks on a signal are made in a fixed order.  A marker that
    does not start with the digit 1 (every marker that is zero or
    negative, for one) is reported first, whatever the signal; then an
    empty signal raises [IndexError]; then a signal whose first value is
    not 1 is reported, whatever the digits of the marker. *)
Theorem verify_prn_early_errors (sid : GpsSatelliteId) :
  (∀ prn marker,
     marker ≤ 0 ∨ String.get 0 (Py.str marker) ≠ Some "1"%char →
     verify_prn sid prn marker
     = Raise (ValueError "Test vector PRN is always expected to begin with 1"))
  ∧ (∀ marker,
       String.get 0 (Py.str marker) = Some "1"%char →
       verify_prn sid [] marker = Raise IndexError)
  ∧ (∀ chip prn marker,
       String.get 0 (Py.str marker) = Some "1"%char →
       chip ≠ 1 →
       verify_prn sid (chip :: prn) marker
       = Raise (ValueError "Generated PRNs always need to start with 1")).
Proof.
  split; [|split].
  - intros prn marker Hbad.
    assert (String.get 0 (Py.str marker) ≠ Some "1"%char) as Hlead.
    { destruct Hbad as [Hle|Hne]; [by apply str_nonpositive|exact Hne]. }
    unfold verify_prn. pose proof (str_nonempty marker) as Hstr.
    destruct (Py.str marker) as [|c rest]; [done|].
    cbn [String.get] in Hlead.
    destruct (Ascii.eqb_spec c "1") as [->|_]; [done|reflexivity].
  - intros marker Hlead. unfold verify_prn.
    destruct (Py.str marker) as [|c rest]; [done|].
    cbn [String.get] in Hlead. injection Hlead as ->. reflexivity.
  - intros chip prn marker Hlead Hchip. unfold verify_prn.
    destruct (Py.str marker) as [|c rest]; [done|].
    cbn [String.get] in Hlead. injection Hlead as ->.
    cbn [negb Ascii.eqb Bool.eqb].
    change (Py.getitem (chip :: prn) 0) with (Ok chip : result Z).
    cbn [mbind result_bind]. by destruct (decide (chip ≠ 1)).
Qed.

Lemma verify_prn_early_errors_witness :
  verify_prn (sat 1) [] (-1440)
  = Raise (ValueError "Test vector PRN is always expected to begin with 1")
  ∧ verify_prn (sat 1) [] 1440 = Raise IndexError
  ∧ verify_prn (sat 1) [0; 1; 0; 0] 1999
    = Raise (ValueError "Generated PRNs always need to start with 1").
Proof.
  destruct (verify_prn_early_errors (sat 1)) as (Hmarker & Hempty & Hfirst).
  split; [|split].
  - apply Hmarker. left. lia.
  - apply Hempty. reflexivity.
  - apply Hfirst; [reflexivity|discriminate].
Defined.

(** ** A satellite without a signal *)

Lemma dict_get_None {V} (d : dict V) (k : GpsSatelliteId) :
  dict_get d k = None ↔ k ∉ map fst d.
Proof.
  induction d as [|[k' v] d IH]; cbn [dict_get map fst].
  - split; [intros _; apply not_elem_of_nil|done].
  - rewrite not_elem_of_cons. destruct (decide (k' = k)) as [->|Hne].
    + split; [done|]. by intros [? _].
    + rewrite IH. split; [by intros ?; split|by intros [_ ?]].
Qed.

Lemma generate_output_usable (tap_table : dict G2SequenceTapsConfiguration) :
  Forall (λ item, usable_taps (taps item.2)) tap_table →
  ∃ output, generate_output tap_table = Ok output.
Proof.
  induction 1 as [|item tap_table [Hrange Hne] _ [output IH]]; [by exists []|].
  destruct (generated_total _ Hrange Hne) as (prn & Hprn & _).
  unfold generate_output in *. cbn [mapM].
  rewrite Hprn. cbn [mbind result_bind]. rewrite IH.
  cbn [mbind result_bind mret result_ret]. by eexists.
Qed.

(** X10: a satellite of the marker table for which the tap table has no
    entry makes [generate_replica_prn_signals] raise: no mapping is ever
    returned in which a marker's satellite has no signal.  When the codes
    of the tap table generate and the satellite is the first of the marker
    table, the exception is the [KeyError] of the satellite id. *)
Theorem missing_signal_raises :
  (∀ tap_table markers sid marker,
     (sid, marker) ∈ markers →
     dict_get tap_table sid = None →
     ∃ e, generate_replica_prn_signals_from tap_table markers = Raise e)
  ∧ (∀ tap_table markers sid marker,
       Forall (λ item, usable_taps (taps item.2)) tap_table →
       dict_get tap_table sid = None →
       generate_replica_prn_signals_from tap_table ((sid, marker) :: markers)
       = Raise (KeyError (id sid))).
Proof.
  split.
  - intros tap_table markers sid marker Hin Hnone.
    destruct (generate_replica_prn_signals_from tap_table markers)
      as [output|e] eqn:Hresult; [|by exists e].
    apply generate_replica_prn_signals_from_spec in Hresult as [Hout Hverify].
    apply generate_output_spec, generated_keys in Hout.
    apply verify_all_spec in Hverify. rewrite Forall_forall in Hverify.
    destruct (Hverify _ Hin) as (signal & Hget & _). cbn [fst] in Hget.
    apply dict_get_key in Hget. rewrite Hout in Hget.
    by apply dict_get_None in Hnone.
  - intros tap_table markers sid marker Husable Hnone.
    destruct (generate_output_usable _ Husable) as [output Hout].
    unfold generate_replica_prn_signals_from. rewrite Hout.
    cbn [mbind result_bind verify_all]. unfold dict_getitem.
    assert (dict_get output sid = None) as ->; [|reflexivity].
    apply dict_get_None.
    rewrite (generated_keys _ _ (generate_output_spec _ _ Hout)).
    by apply dict_get_None.
Qed.

Lemma missing_signal_raises_witness :
  generate_replica_prn_signals_from
    [(sat 1, {| taps := [2; 6] |})] [(sat 2, 1620); (sat 1, 1440)]
  = Raise (KeyError 2).
Proof.
  apply (proj2 missing_signal_raises
           [(sat 1, {| taps := [2; 6] |})] [(sat 1, 1440)] (sat 2) 1620).
  - repeat constructor; cbn; lia || discriminate.
  - reflexivity.
Defined.

(** ** A changed tap is detected *)

Lemma verify_prn_first_mismatch (sid : GpsSatelliteId) (prn : list Z)
    (marker : Z) (d : nat) (actual : Z) (c : ascii) :
  String.get 0 (Py.str marker) = Some "1"%char →
  prn !! 0%nat = Some 1 →
  Forall is_bit prn →
  first_mismatch prn marker = Some (d, actual, c) →
  verify_prn sid prn marker = Raise (ValueError (mismatch_message sid actual c)).
Proof.
  intros Hlead Hfirst Hbits Hmismatch.
  unfold first_mismatch, expected_digits in Hmismatch. unfold verify_prn.
  destruct (Py.str marker) as [|c0 rest] eqn:Hstr; [done|].
  cbn [String.get] in Hlead. injection Hlead as ->.
  cbn [negb Ascii.eqb Bool.eqb].
  change (Py.getitem prn 0) with (Py.getitem prn (Z.of_nat 0)).
  rewrite (getitem_nat _ _ _ Hfirst). cbn [mbind result_bind].
  destruct (decide (1 ≠ 1)); [done|].
  apply (verify_digits_first_difference sid (drop 1 prn) rest 0 d actual c).
  - by apply Forall_drop.
  - by apply (str_tail_digits marker "1" rest).
  - exact Hmismatch.
Qed.

Lemma changed_code_fails (sid : GpsSatelliteId) (marker : Z) (taps' prn : list Z) :
  String.get 0 (Py.str marker) = Some "1"%char →
  String.length (Py.str marker) = 4%nat →
  usable_taps taps' →
  mismatch_found marker taps' = true →
  _generate_ca_code_with_taps taps' = Ok prn →
  ∃ actual c,
    verify_prn sid prn marker = Raise (ValueError (mismatch_message sid actual c)).
Proof.
  intros Hlead Hlen [Hrange Hne] Hfound Hprn. unfold mismatch_found in Hfound.
  cbv zeta in Hfound.
  rewrite !andb_true_iff, !bool_decide_eq_true in Hfound.
  destruct Hfound as [[Hfirst Hbits] [[[d actual] c] Hmismatch]].
  exists actual, c.
  rewrite <- (verify_prn_take sid marker 10 prn) by (rewrite ?Hlen; cbn; lia).
  rewrite (generated_first_chips _ 10 _ Hrange Hne ltac:(lia) Hprn).
  by apply (verify_prn_first_mismatch sid _ marker d).
Qed.

Lemma dict_get_replace (tap_table : dict G2SequenceTapsConfiguration)
    (sid k : GpsSatelliteId) (taps' : list Z) :
  dict_get (replace_taps tap_table sid taps') k
  = if decide (k = sid)
    then (λ _, {| taps := taps' |}) <$> dict_get tap_table k
    else dict_get tap_table k.
Proof.
  induction tap_table as [|[k0 c0] tap_table IH].
  - by destruct (decide (k = sid)).
  - unfold replace_taps in *. cbn [map fst dict_get].
    destruct (decide (k0 = sid)) as [->|Hne0]; cbn [dict_get fst].
    + destruct (decide (sid = k)) as [<-|Hne].
      * by destruct (decide (sid = sid)).
      * rewrite IH. by destruct (decide (k = sid)).
    + destruct (decide (k0 = k)) as [<-|Hne].
      * by destruct (decide (k0 = sid)).
      * exact IH.
Qed.

Lemma replace_taps_usable (tap_table : dict G2SequenceTapsConfiguration)
    (sid : GpsSatelliteId) (taps' : list Z) :
  Forall (λ item, usable_taps (taps item.2)) tap_table →
  usable_taps taps' →
  Forall (λ item, usable_taps (taps item.2)) (replace_taps tap_table sid taps').
Proof.
  intros Hall Hnew. unfold replace_taps. apply Forall_fmap.
  eapply Forall_impl; [exact Hall|]. intros item Hitem. cbn.
  by destruct (decide (item.1 = sid)).
Qed.

Lemma table_all_usable :
  Forall (λ item : GpsSatelliteId * G2SequenceTapsConfiguration,
            usable_taps (taps item.2))
         satellite_id_to_g2_sequence_tap_configuration.
Proof.
  eapply Forall_impl; [exact table_all_two_taps|].
  intros item Htwo. exact (two_taps_usable _ Htwo).
Qed.

Lemma dict_get_split {V} (d : dict V) (k : GpsSatelliteId) (v : V) :
  dict_get d k = Some v →
  ∃ pre post, d = pre ++ (k, v) :: post ∧ k ∉ map fst pre.
Proof.
  induction d as [|[k' v'] d IH]; [done|]. cbn [dict_get].
  destruct (decide (k' = k)) as [->|Hne].
  - intros [= ->]. exists [], d. split; [done|apply not_elem_of_nil].
  - intros Hget. destruct (IH Hget) as (pre & post & -> & Hnotin).
    exists ((k', v') :: pre), post. split; [done|].
    cbn [map fst]. rewrite not_elem_of_cons. split; [congruence|done].
Qed.

Lemma verify_all_app (output : dict GpsReplicaPrnSignal) (pre post : dict Z) :
  Forall (verified_in output) pre →
  verify_all output (pre ++ post) = verify_all output post.
Proof.
  induction 1 as [|[k m] pre (signal & Hget & Hverify) _ IH]; [done|].
  cbn [app verify_all]. unfold dict_getitem. cbn [fst snd] in Hget, Hverify.
  rewrite Hget. cbn [mbind result_bind]. rewrite Hverify.
  cbn [mbind result_bind]. exact IH.
Qed.

Lemma marker_entry_verified_in (tap_table : dict G2SequenceTapsConfiguration)
    (output : dict GpsReplicaPrnSignal) (item : GpsSatelliteId * Z) :
  Forall2 generated_from tap_table output →
  dict_get tap_table item.1
  = dict_get satellite_id_to_g2_sequence_tap_configuration item.1 →
  marker_entry_verifies item = true →
  verified_in output item.
Proof.
  intros Hgen Hsame. unfold marker_entry_verifies. rewrite <- Hsame.
  destruct (dict_get tap_table item.1) as [cfg|] eqn:Hcfg; [|done].
  rewrite !andb_true_iff, !bool_decide_eq_true.
  intros [[Htwo Hlen] Hverify]. apply two_taps_b_spec in Htwo.
  destruct (two_taps_usable _ Htwo) as [Hrange Hne].
  destruct (generated_lookup _ _ _ _ Hgen Hcfg) as (signal & Hget & Hprn).
  exists signal. split; [done|].
  rewrite <- (verify_prn_take _ _ 10) by (rewrite ?Hlen; cbn; lia).
  by rewrite (generated_first_chips _ 10 _ Hrange Hne ltac:(lia) Hprn).
Qed.

(** The table with one entry replaced by taps whose code disagrees with
    the marker of the satellite: the call raises the mismatch error of
    that satellite. *)
Lemma changed_table_fails (sid : GpsSatelliteId) (marker : Z) (taps' : list Z) :
  1 ≤ id sid ≤ 32 →
  dict_get expected_prn_starting_markers sid = Some marker →
  String.get 0 (Py.str marker) = Some "1"%char →
  String.length (Py.str marker) = 4%nat →
  usable_taps taps' →
  mismatch_found marker taps' = true →
  ∃ actual c,
    generate_replica_prn_signals_from
      (replace_taps satellite_id_to_g2_sequence_tap_configuration sid taps')
      expected_prn_starting_markers
    = Raise (ValueError (mismatch_message sid actual c)).
Proof.
  intros Hid Hmarker Hlead Hlen Husable Hfound.
  destruct (table_entry sid Hid) as (cfg & Hcfg & _).
  pose proof (replace_taps_usable _ sid taps' table_all_usable Husable) as Hall.
  destruct (generate_output_usable _ Hall) as [output Hout].
  pose proof (generate_output_spec _ _ Hout) as Hgen.
  destruct (generated_lookup _ _ sid {| taps := taps' |} Hgen)
    as (signal & Hget & Hprn).
  { rewrite dict_get_replace, Hcfg. by destruct (decide (sid = sid)). }
  cbn [taps] in Hprn.
  destruct (changed_code_fails sid marker taps' _ Hlead Hlen Husable Hfound Hprn)
    as (actual & c & Hverify).
  exists actual, c.
  destruct (dict_get_split _ _ _ Hmarker) as (pre & post & Hsplit & Hnotin).
  unfold generate_replica_prn_signals_from. rewrite Hout.
  cbn [mbind result_bind]. rewrite Hsplit, verify_all_app.
  - cbn [verify_all]. unfold dict_getitem. rewrite Hget.
    cbn [mbind result_bind]. rewrite Hverify. reflexivity.
  - apply Forall_forall. intros [k m] Hin.
    apply (marker_entry_verified_in _ _ _ Hgen).
    + cbn [fst]. rewrite dict_get_replace.
      destruct (decide (k = sid)) as [->|_]; [|done].
      exfalso. apply Hnotin, list_elem_of_fmap. by exists (sid, m).
    + pose proof markers_verify as Hmarkers.
      rewrite forallb_forall in Hmarkers. apply Hmarkers, list_elem_of_In.
      rewrite Hsplit. apply elem_of_app. by left.
Qed.

Lemma single_changes_detected_all :
  forallb single_changes_detected satellite_ids = true.
Proof. vm_compute. reflexivity. Qed.

(** X11: a transcription error in one tap of one satellite is always
    caught: with the tap table of the source in which one of the two taps
    of a satellite is changed to another position in [1,10],
    [generate_replica_prn_signals] raises the mismatch error of that
    satellite. *)
Theorem single_tap_change_is_detected (sid : GpsSatelliteId) (a b x : Z) :
  1 ≤ id sid ≤ 32 →
  dict_get satellite_id_to_g2_sequence_tap_configuration sid
  = Some {| taps := [a; b] |} →
  1 ≤ x ≤ 10 →
  (x ≠ a →
   ∃ actual c,
     generate_replica_prn_signals_from
       (replace_taps satellite_id_to_g2_sequence_tap_configuration sid [x; b])
       expected_prn_starting_markers
     = Raise (ValueError (mismatch_message sid actual c)))
  ∧ (x ≠ b →
     ∃ actual c,
       generate_replica_prn_signals_from
         (replace_taps satellite_id_to_g2_sequence_tap_configuration sid [a; x])
         expected_prn_starting_markers
       = Raise (ValueError (mismatch_message sid actual c))).
Proof.
  intros Hid Hcfg Hx.
  pose proof (for_all_satellites _ sid single_changes_detected_all Hid) as Hcheck.
  unfold single_changes_detected in Hcheck. rewrite Hcfg in Hcheck.
  destruct (dict_get expected_prn_starting_markers sid) as [marker|] eqn:Hmarker;
    [|discriminate Hcheck].
  cbn [taps] in Hcheck.
  rewrite !andb_true_iff, !bool_decide_eq_true in Hcheck.
  destruct Hcheck as [[[Hlead Hlen] Hfirst] Hsecond].
  destruct (table_entry sid Hid) as (cfg & Hcfg' & Htwo).
  rewrite Hcfg in Hcfg'. injection Hcfg' as <-.
  destruct Htwo as (a' & b' & [= <- <-] & _ & Ha & Hb).
  split.
  - intros Hne.
    pose proof (for_all_positions _ x Hfirst Hx) as Hfound. cbn beta in Hfound.
    apply orb_true_iff in Hfound as [Heq|Hfound];
      [by apply bool_decide_eq_true in Heq|].
    apply (changed_table_fails sid marker [x; b]); try done.
    split; [repeat constructor; lia|done].
  - intros Hne.
    pose proof (for_all_positions _ x Hsecond Hx) as Hfound. cbn beta in Hfound.
    apply orb_true_iff in Hfound as [Heq|Hfound];
      [by apply bool_decide_eq_true in Heq|].
    apply (changed_table_fails sid marker [a; x]); try done.
    split; [repeat constructor; lia|done].
Qed.

Lemma single_tap_change_is_detected_witness :
  ∃ actual c,
    generate_replica_prn_signals_from
      (replace_taps satellite_id_to_g2_sequence_tap_configuration (sat 1) [3; 6])
      expected_prn_starting_markers
    = Raise (ValueError (mismatch_message (sat 1) actual c)).
Proof.
  apply (proj1 (single_tap_change_is_detected (sat 1) 2 6 3
                  ltac:(cbn; lia) eq_refl ltac:(lia))).
  discriminate.
Defined.

(** ** The rotation construction and its delay *)

Lemma roll_mod (a : list Z) (shift : Z) :
  Np.roll a shift = Np.roll a (shift mod Z.of_nat (length a)).
Proof.
  unfold Np.roll. destruct a as [|x a]; [done|].
  assert (Z.of_nat (length (x :: a)) ≠ 0) as Hn by (cbn [length]; lia).
  assert ((- (shift mod Z.of_nat (length (x :: a)))) mod Z.of_nat (length (x :: a))
          = (- shift) mod Z.of_nat (length (x :: a))) as Hmod.
  { rewrite <- (Z.sub_0_l (shift mod _)), <- (Z.sub_0_l shift).
    by rewrite Zminus_mod_idemp_r. }
  by rewrite Hmod.
Qed.

Lemma length_roll (a : list Z) (shift : Z) : length (Np.roll a shift) = length a.
Proof.
  unfold Np.roll. destruct a as [|x a]; [done|].
  rewrite length_app, length_drop, length_take.
  pose proof (Z.mod_pos_bound (- shift) (Z.of_nat (length (x :: a)))
                ltac:(cbn [length]; lia)).
  lia.
Qed.

Lemma Forall_roll (P : Z → Prop) (a : list Z) (shift : Z) :
  Forall P a → Forall P (Np.roll a shift).
Proof.
  intros Hall. unfold Np.roll. destruct a as [|x a]; [done|].
  apply Forall_app. split; [by apply Forall_drop|by apply Forall_take].
Qed.

Lemma Forall_xor_bits (a b : list Z) :
  Forall is_bit a → Forall is_bit b → Forall is_bit (Np.bitwise_xor a b).
Proof.
  intros Ha. revert b. induction Ha as [|x a Hx _ IH]; intros b Hb; [constructor|].
  destruct Hb as [|y b Hy Hb]; [constructor|].
  cbn. constructor; [|by apply IH].
  destruct Hx as [-> | ->], Hy as [-> | ->]; (by left) || (by right).
Qed.

Lemma sequences_shape :
  length g1_sequence = 1023%nat ∧ length g2_sequence = 1023%nat
  ∧ Forall is_bit g1_sequence ∧ Forall is_bit g2_sequence.
Proof.
  split; [vm_compute; reflexivity|]. split; [vm_compute; reflexivity|].
  split; apply (bool_decide_eq_true_1 _); vm_compute; reflexivity.
Qed.

Lemma rolled_by_mod (delay_ms : Z) :
  _generate_ca_code_rolled_by delay_ms
  = _generate_ca_code_rolled_by (delay_ms mod 1023).
Proof.
  rewrite !rolled_by_unfold, (roll_mod g2_sequence delay_ms).
  destruct sequences_shape as (_ & -> & _). reflexivity.
Qed.

(** X12: [_generate_ca_code_rolled_by] depends on its delay modulo 1023
    only, and on nothing less: two delays give the same code exactly when
    they are congruent modulo 1023 (negative delays and delays of a period
    or more included). *)
Theorem rolled_by_same_code_iff (d d' : Z) :
  _generate_ca_code_rolled_by d = _generate_ca_code_rolled_by d'
  ↔ d mod 1023 = d' mod 1023.
Proof.
  split.
  - rewrite (rolled_by_mod d), (rolled_by_mod d').
    apply rolled_by_injective; apply Z.mod_pos_bound; lia.
  - intros Hmod. by rewrite (rolled_by_mod d), (rolled_by_mod d'), Hmod.
Qed.

Lemma rolled_by_same_code_iff_witness :
  _generate_ca_code_rolled_by (-1018) = _generate_ca_code_rolled_by 5
  ∧ _generate_ca_code_rolled_by 5 ≠ _generate_ca_code_rolled_by 6.
Proof.
  split.
  - apply (proj2 (rolled_by_same_code_iff (-1018) 5)). reflexivity.
  - intros Heq. apply (proj1 (rolled_by_same_code_iff 5 6)) in Heq.
    discriminate Heq.
Defined.

(** X13: [_generate_ca_code_rolled_by] raises for no delay: it always
    returns 1023 values, each 0 or 1. *)
Theorem rolled_by_total (delay_ms : Z) :
  ∃ prn,
    _generate_ca_code_rolled_by delay_ms = Ok prn
    ∧ Z.of_nat (length prn) = PRN_CHIP_COUNT
    ∧ Forall is_bit prn.
Proof.
  destruct sequences_shape as (Hlen1 & Hlen2 & Hbits1 & Hbits2).
  eexists. split; [apply rolled_by_unfold|]. split.
  - unfold Np.bitwise_xor. rewrite length_zip_with, length_roll, Hlen1, Hlen2.
    reflexivity.
  - apply Forall_xor_bits; [done|by apply Forall_roll].
Qed.

(** ** The number of ones in a code *)

Lemma codes_have_512_ones : forallb code_has_512_ones satellite_ids = true.
Proof. vm_compute. reflexivity. Qed.

(** X14: every signal of the mapping returned by
    [generate_replica_prn_signals] is balanced: of its 1023 chips, 512 are
    ones and 511 are zeros. *)
Theorem replica_signals_balanced :
  ∃ output,
    generate_replica_prn_signals = Ok output
    ∧ ∀ sid signal,
        dict_get output sid = Some signal →
        length (filter (λ chip, chip = 1) (inner signal)) = 512%nat
        ∧ length (filter (λ chip, chip = 0) (inner signal)) = 511%nat.
Proof.
  destruct generate_replica_prn_signals_ok as (output & Hok & Hgen & _).
  exists output. split; [exact Hok|]. intros sid signal Hget.
  destruct (output_prefix _ _ _ Hgen Hget) as [Hin _].
  assert (1 ≤ id sid ≤ 32) as Hid.
  { unfold satellite_ids in Hin. apply list_elem_of_fmap in Hin as (n & -> & Hn).
    apply elem_of_seq in Hn. cbn. lia. }
  destruct (table_entry sid Hid) as (cfg & Hcfg & Htwo).
  destruct (two_taps_usable _ Htwo) as [Hrange Hne].
  destruct (generated_lookup _ _ _ _ Hgen Hcfg) as (signal' & Hget' & Hprn).
  assert (signal' = signal) as -> by congruence.
  destruct (generated_total _ Hrange Hne) as (prn & Hprn' & Hlen & Hbits).
  assert (prn = inner signal) as -> by congruence.
  pose proof (for_all_satellites _ sid codes_have_512_ones Hid) as Hcheck.
  unfold code_has_512_ones in Hcheck. rewrite Hcfg, Hprn in Hcheck.
  cbn [sequence_of] in Hcheck. apply bool_decide_eq_true in Hcheck.
  revert Hlen Hbits Hcheck. generalize (inner signal) as chips.
  intros chips Hlen Hbits Hsum.
  assert (∀ acc, fold_left Z.add chips acc
                 = acc + Z.of_nat (length (filter (λ chip, chip = 1) chips))
                 ∧ length chips
                   = (length (filter (λ chip : Z, chip = 1%Z) chips)
                      + length (filter (λ chip : Z, chip = 0%Z) chips))%nat)
    as Hcount.
  { clear Hlen Hsum. induction Hbits as [|chip chips [-> | ->] _ IH]; intros acc.
    - cbn. split; [lia|done].
    - destruct (IH (acc + 0)) as [Hfold Hsplit].
      cbn [fold_left]. rewrite Hfold.
      rewrite filter_cons_False by done. rewrite filter_cons_True by done.
      cbn [length]. split; lia.
    - destruct (IH (acc + 1)) as [Hfold Hsplit].
      cbn [fold_left]. rewrite Hfold.
      rewrite filter_cons_True by done. rewrite filter_cons_False by done.
      cbn [length]. split; lia. }
  destruct (Hcount 0) as [Hfold Hsplit]. unfold Py.sum in Hsum. lia.
Qed.

Lemma replica_signals_balanced_witness :
  ∃ output signal,
    generate_replica_prn_signals = Ok output
    ∧ dict_get output (sat 1) = Some signal
    ∧ length (filter (λ chip, chip = 1) (inner signal)) = 512%nat.
Proof.
  destruct replica_signals_balanced as (output & Hok & Hall).
  destruct generate_replica_prn_signals_ok as (output' & Hok' & Hgen & _).
  assert (output' = output) as -> by congruence.
  destruct (generated_lookup _ _ (sat 1) {| taps := [2; 6] |} Hgen)
    as (signal & Hget & _); [reflexivity|].
  exists output, signal. split; [exact Hok|]. split; [exact Hget|].
  exact (proj1 (Hall (sat 1) signal Hget)).
Defined.

(** ** The delay that matches a tap configuration *)

Lemma delays_in_period : forallb delay_in_period satellite_ids = true.
Proof. vm_compute. reflexivity. Qed.

(** X15: for every satellite of the tap table there is exactly one rotation
    of the G2 sequence, among the 1023 of a period, with which
    [_generate_ca_code_rolled_by] returns the code that
    [_generate_ca_code_with_taps] returns for the taps of the satellite. *)
Theorem one_delay_per_satellite (sid : GpsSatelliteId)
    (cfg : G2SequenceTapsConfiguration) :
  1 ≤ id sid ≤ 32 →
  dict_get satellite_id_to_g2_sequence_tap_configuration sid = Some cfg →
  ∃ d, 0 ≤ d < 1023
       ∧ _generate_ca_code_rolled_by d = _generate_ca_code_with_taps (taps cfg)
       ∧ ∀ d', 0 ≤ d' < 1023 →
               _generate_ca_code_rolled_by d'
               = _generate_ca_code_with_taps (taps cfg) →
               d' = d.
Proof.
  intros Hid Hcfg.
  pose proof (for_all_satellites _ sid constructions_agree_all Hid) as Hagree.
  pose proof (for_all_satellites _ sid delays_in_period Hid) as Hrange.
  unfold constructions_agree in Hagree. unfold delay_in_period in Hrange.
  rewrite Hcfg in Hagree.
  destruct (dict_get satellite_id_to_chip_delay sid) as [[d]|];
    [|discriminate Hagree].
  apply bool_decide_eq_true in Hagree. apply bool_decide_eq_true in Hrange.
  cbn [delay_ms] in Hagree, Hrange.
  exists d. split; [exact Hrange|]. split; [exact Hagree|].
  intros d' Hd' Heq. rewrite <- Hagree in Heq.
  exact (rolled_by_injective _ _ Hd' Hrange Heq).
Qed.

Lemma one_delay_per_satellite_witness :
  ∃ d, 0 ≤ d < 1023
       ∧ _generate_ca_code_rolled_by d = _generate_ca_code_with_taps [1; 3].
Proof.
  destruct (one_delay_per_satellite (sat 23) {| taps := [1; 3] |})
    as (d & Hd & Heq & _); [cbn; lia|reflexivity|].
  exists d. split; [exact Hd|exact Heq].
Defined.

(** ** A single output tap *)

Lemma single_taps_are_rotations :
  forallb single_tap_is_rotation tap_positions = true.
Proof. vm_compute. reflexivity. Qed.

(** X16: read at the single output tap [k] instead of tap 10, the G2
    register gives the G2 sequence [10 - k] chips early: the code generated
    with the one tap [k] is the code of the rotation construction for the
    delay [k - 10]; with tap 10 it is the code for the delay 0. *)
Theorem single_tap_is_rolled_g2 (k : Z) :
  1 ≤ k ≤ 10 →
  _generate_ca_code_with_taps [k] = _generate_ca_code_rolled_by (k - 10).
Proof.
  intros Hk. rewrite rolled_by_unfold.
  pose proof (for_all_positions _ k single_taps_are_rotations Hk) as Hcheck.
  unfold single_tap_is_rotation in Hcheck.
  apply bool_decide_eq_true in Hcheck. exact Hcheck.
Qed.

Lemma single_tap_is_rolled_g2_witness :
  _generate_ca_code_with_taps [10] = _generate_ca_code_rolled_by 0.
Proof. apply (single_tap_is_rolled_g2 10). lia. Defined.
